(** * Well production / injection dashboard: the table preparation and the
      chart builders of [main.py], embedded and verified.

    The pandas tables are lists of typed rows (the index is the default
    [RangeIndex] that [pd.read_csv] produces, so a row is known by its
    position).  A column assignment of the source is a list the length of
    the table; [make_frame] puts the columns back into rows.

    Numeric cells (coordinates, volumes) are IEEE binary64 values
    ([PrimFloat]), NaN included.  Strings are ASCII text.  The state of
    [np.random] is passed explicitly. *)

From Stdlib Require Import List String Ascii Bool Arith PeanoNat Lia.
From Stdlib Require Import ZArith Floats Sorted.
Import ListNotations.

Local Open Scope string_scope.
Local Open Scope list_scope.
Local Open Scope nat_scope.

Set Implicit Arguments.

(* ------------------------------------------------------------------ *)
(** ** Python strings *)

Module Py.

(** [str.isspace] on one ASCII character: TAB, LF, VT, FF, CR, the four
    separators FS GS RS US, and the space.  Characters beyond ASCII are
    outside the model (see [is_ascii_text]). *)
Definition isspace (c : ascii) : bool :=
  let n := nat_of_ascii c in
  ((9 <=? n) && (n <=? 13)) || ((28 <=? n) && (n <=? 32)).

Fixpoint lstrip (s : string) : string :=
  match s with
  | String c s' => if isspace c then lstrip s' else s
  | EmptyString => EmptyString
  end.

Fixpoint rstrip (s : string) : string :=
  match s with
  | String c s' =>
      match rstrip s' with
      | EmptyString => if isspace c then EmptyString else String c EmptyString
      | kept => String c kept
      end
  | EmptyString => EmptyString
  end.

(** [s.strip()] *)
Definition strip (s : string) : string := rstrip (lstrip s).

(** [str.upper] on one ASCII character. *)
Definition upper_char (c : ascii) : ascii :=
  let n := nat_of_ascii c in
  if (97 <=? n) && (n <=? 122) then ascii_of_nat (n - 32) else c.

(** [s.upper()] *)
Fixpoint upper (s : string) : string :=
  match s with
  | String c s' => String (upper_char c) (upper s')
  | EmptyString => EmptyString
  end.

(** [s.startswith(p)] *)
Definition startswith (s p : string) : bool := String.prefix p s.

(** [x in values] on strings *)
Definition contains (values : list string) (x : string) : bool :=
  existsb (String.eqb x) values.

End Py.

(* ------------------------------------------------------------------ *)
(** ** Cells and tables *)

(** A cell of a text column as [pd.read_csv] delivers it: the text, or
    [NA] (pandas' NaN) where the field was empty. *)
Inductive cell : Type :=
| Str (s : string)
| NA.

(** [str(x)] *)
Definition str (x : cell) : string :=
  match x with
  | Str s => s
  | NA => "nan"
  end.

Module Well.
(** One row of the well list.  [Deviation_Ind] is read only when the
    table has the column "Deviation Ind". *)
Record t : Type := mk {
  UWI : string;
  Longitude_NAD_83 : float;
  Latitude_NAD_83 : float;
  Deviation_Ind : cell
}.
End Well.

(** The well list: its rows, and whether "Deviation Ind" is one of
    [df.columns]. *)
Record well_table : Type := {
  has_Deviation_Ind : bool;
  wells : list Well.t
}.

Module Prod.
Record t : Type := mk {
  UWI : string;
  Date : cell;
  Oil_M3 : float;
  Water_M3 : float;
  Gas_E3M3 : float
}.
End Prod.

Module Inj.
Record t : Type := mk {
  UWI : string;
  Date : cell;
  Water_Inj_M3 : float
}.
End Inj.

(** A row of the table [prepare_well_data] returns: the columns of the well
    list and the five it adds. *)
Record prepared : Type := {
  source : Well.t;
  Well_Type : string;
  Deviation_Type : string;
  Well_ID : nat;
  plot_lon : float;
  plot_lat : float
}.

(* ------------------------------------------------------------------ *)
(** ** pandas and numpy operations used by [prepare_well_data] *)

(** [col.isin(values)] *)
Definition isin (col values : list string) : list bool :=
  map (Py.contains values) col.

(** [df.loc[mask, c] = v] on the column [c] *)
Fixpoint loc_set (A : Type) (mask : list bool) (col : list A) (v : A) : list A :=
  match mask, col with
  | m :: mask', x :: col' => (if m then v else x) :: loc_set mask' col' v
  | _, _ => col
  end.

(** Equality of two float cells as pandas' hash tables decide it: IEEE
    equality, and NaN equal to NaN. *)
Definition float_same (x y : float) : bool :=
  PrimFloat.eqb x y || (PrimFloat.is_nan x && PrimFloat.is_nan y).

Definition same_coords (k k' : float * float) : bool :=
  float_same (fst k) (fst k') && float_same (snd k) (snd k').

(** [df.duplicated(subset=..., keep=False)]: a row is marked when a row
    before it or a row after it has the same key. *)
Fixpoint duplicated_from (before keys : list (float * float)) : list bool :=
  match keys with
  | k :: after =>
      (existsb (same_coords k) before || existsb (same_coords k) after)
        :: duplicated_from (k :: before) after
  | [] => []
  end.

Definition duplicated (keys : list (float * float)) : list bool :=
  duplicated_from [] keys.

(** [mask.sum()] *)
Fixpoint mask_sum (mask : list bool) : nat :=
  match mask with
  | b :: mask' => (if b then 1 else 0) + mask_sum mask'
  | [] => 0
  end.

(** The state of [np.random]: the values [random_sample()] will return, in
    the order it will return them. *)
Definition rng : Type := nat -> float.

(** [np.random.uniform(low, high, size)]: [size] draws, each
    [low + (high - low) * random_sample()], and the generator advanced. *)
Definition uniform (low high : float) (size : nat) (g : rng) : list float * rng :=
  (map (fun n => (low + (high - low) * g n)%float) (seq 0 size),
   fun n => g (size + n)).

(** [df.loc[mask, c] += offsets]: the marked rows take the offsets in
    order.  numpy refuses an array whose length is not [mask.sum()]; the
    source builds it with that length, see [uniform_mask_length]. *)
Fixpoint loc_add (mask : list bool) (col offsets : list float) : list float :=
  match mask, col with
  | true :: mask', x :: col' =>
      match offsets with
      | o :: offsets' => (x + o)%float :: loc_add mask' col' offsets'
      | [] => x :: loc_add mask' col' []
      end
  | false :: mask', x :: col' => x :: loc_add mask' col' offsets
  | _, _ => col
  end.

(** The rows of a table from its columns. *)
Fixpoint make_frame (df : list Well.t) (wt dt : list string) (ids : list nat)
    (lon lat : list float) : list prepared :=
  match df, wt, dt, ids, lon, lat with
  | r :: df', a :: wt', b :: dt', i :: ids', x :: lon', y :: lat' =>
      Build_prepared r a b i x y :: make_frame df' wt' dt' ids' lon' lat'
  | _, _, _, _, _, _ => []
  end.

(* ------------------------------------------------------------------ *)
(** ** [prepare_well_data] *)

Definition deviation_of (x : cell) : string :=
  if Py.startswith (Py.upper (Py.strip (str x))) "H" then "Horizontal" else "Vertical".

(** The doubles that the literals [-0.0003] and [0.0003] denote. *)
Definition jitter_low : float := (-0x1.3a92a30553261p-12)%float.
Definition jitter_high : float := 0x1.3a92a30553261p-12%float.

Definition prepare_well_data (welllist : well_table) (prod : list Prod.t)
    (inj : list Inj.t) (include_unknown : bool) (g : rng) : list prepared * rng :=
  let df := wells welllist in
  let uwi := map Well.UWI df in
  let well_type := map (fun _ => "Unknown") df in
  let well_type := loc_set (isin uwi (map Prod.UWI prod)) well_type "Production" in
  let well_type := loc_set (isin uwi (map Inj.UWI inj)) well_type "Injection" in
  let deviation_type :=
    if has_Deviation_Ind welllist
    then map deviation_of (map Well.Deviation_Ind df)
    else map (fun _ => "Unknown") df in
  let well_id := seq 1 (List.length df) in
  let lon := map Well.Longitude_NAD_83 df in
  let lat := map Well.Latitude_NAD_83 df in
  let dup_mask := duplicated (combine lon lat) in
  let (dlon, g1) := uniform jitter_low jitter_high (mask_sum dup_mask) g in
  let lon := loc_add dup_mask lon dlon in
  let (dlat, g2) := uniform jitter_low jitter_high (mask_sum dup_mask) g1 in
  let lat := loc_add dup_mask lat dlat in
  let out := make_frame df well_type deviation_type well_id lon lat in
  let out :=
    if include_unknown then out
    else filter (fun r => negb (String.eqb (Well_Type r) "Unknown")) out in
  (out, g2).

(** The [Well_Type] a UWI ends with: the injection pass is the later one. *)
Definition well_type_of (prod_uwi inj_uwi : list string) (u : string) : string :=
  if Py.contains inj_uwi u then "Injection"
  else if Py.contains prod_uwi u then "Production"
  else "Unknown".

(** One draw of [np.random.uniform(-0.0003, 0.0003)] from the sample [u]. *)
Definition jitter_draw (u : float) : float :=
  (jitter_low + (jitter_high - jitter_low) * u)%float.

(** The table before the optional filter. *)
Definition prepared_all (welllist : well_table) (prod : list Prod.t)
    (inj : list Inj.t) (g : rng) : list prepared :=
  fst (prepare_well_data welllist prod inj true g).

(** The duplicate mask of the well list's coordinates. *)
Definition dup_mask_of (df : list Well.t) : list bool :=
  duplicated (combine (map Well.Longitude_NAD_83 df) (map Well.Latitude_NAD_83 df)).

Definition coords (w : Well.t) : float * float :=
  (Well.Longitude_NAD_83 w, Well.Latitude_NAD_83 w).






(** A draw that lies between the two bounds passed to
    [np.random.uniform]. *)
Definition within_jitter (d : float) : bool :=
  (jitter_low <=? d)%float && (d <=? jitter_high)%float.

(** The generator keeps its draws for the jitter within the bounds. *)
Definition draws_in_range (g : rng) : Prop :=
  forall n, within_jitter (jitter_draw (g n)) = true.

(** The reading of the jitter rule that promises separation: two rows with
    the same coordinates end away from their source point and away from
    each other. *)
Definition jitter_separates_duplicates : Prop :=
  forall welllist prod inj g i j ri rj,
    i <> j ->
    nth_error (fst (prepare_well_data welllist prod inj true g)) i = Some ri ->
    nth_error (fst (prepare_well_data welllist prod inj true g)) j = Some rj ->
    same_coords (coords (source ri)) (coords (source rj)) = true ->
    (plot_lon ri, plot_lat ri) <> coords (source ri) /\
    (plot_lon rj, plot_lat rj) <> coords (source rj) /\
    (plot_lon ri, plot_lat ri) <> (plot_lon rj, plot_lat rj).

(* ------------------------------------------------------------------ *)
(** ** Figures *)

Inductive trace_type : Type := Bar | Scatter.

(** A [go.Bar] or [go.Scatter] with the arguments the builders pass; an
    argument that is not passed is [None]. *)
Record trace (datetime : Type) : Type := {
  kind : trace_type;
  x : list (option datetime);
  y : list float;
  name : string;
  mode : option string;
  yaxis : option string;
  line_color : option string;
  marker_color : option string;
  opacity : option float
}.

Record axis : Type := {
  axis_title : string;
  range : float * float;
  overlaying : option string;
  side : option string
}.

Record layout : Type := {
  title : string;
  xaxis_title : string;
  layout_yaxis : axis;
  layout_yaxis2 : axis;
  barmode : option string
}.

Record figure (datetime : Type) : Type := {
  data : list (trace datetime);
  fig_layout : layout
}.

(* ------------------------------------------------------------------ *)
(** ** pandas and Python operations used by the chart builders *)

(** [Series.max()]: the largest value that is not NaN, and NaN when there
    is none. *)
Definition max_step (acc v : float) : float :=
  if PrimFloat.is_nan v then acc
  else if PrimFloat.is_nan acc then v
  else if (acc <? v)%float then v else acc.

Definition series_max (col : list float) : float :=
  fold_left max_step col nan.

(** Python's [max(a, b)]: [b] when [b > a], else [a]. *)
Definition py_max (a b : float) : float :=
  if (a <? b)%float then b else a.

(** The truth value of a list. *)
Definition truthy (A : Type) (l : list A) : bool :=
  match l with [] => false | _ :: _ => true end.

(** [enumerate(l)] *)
Definition enumerate (A : Type) (l : list A) : list (nat * A) :=
  combine (seq 0 (List.length l)) l.

(** [prod_df[prod_df["UWI"] == well]] and its injection twin. *)
Definition prod_of_well (prod_df : list Prod.t) (well : string) : list Prod.t :=
  filter (fun r => String.eqb (Prod.UWI r) well) prod_df.

Definition inj_of_well (inj_df : list Inj.t) (well : string) : list Inj.t :=
  filter (fun r => String.eqb (Inj.UWI r) well) inj_df.

(** [prod_df[prod_df["UWI"].isin(prod_wells)]] and its injection twin. *)
Definition prod_of_wells (prod_df : list Prod.t) (wells0 : list string) : list Prod.t :=
  filter (fun r => Py.contains wells0 (Prod.UWI r)) prod_df.

Definition inj_of_wells (inj_df : list Inj.t) (wells0 : list string) : list Inj.t :=
  filter (fun r => Py.contains wells0 (Inj.UWI r)) inj_df.

Definition y_range (max_val : float) : float * float := (0%float, max_val).

Section Builders.

Variable datetime : Type.

(** [pd.to_datetime(text, errors="coerce")] on one text: [None] is NaT. *)
Variable parse_datetime : string -> option datetime.

(** [pd.to_datetime(col, errors="coerce")], each text parsed on its own;
    what is proved of it is where the result goes and how long it is, not
    which dates are read. *)
Definition to_datetime (col : list cell) : list (option datetime) :=
  map (fun c => match c with Str s => parse_datetime s | NA => None end) col.

Definition color_if (first : bool) (c : string) : option string :=
  if first then Some c else None.

(** The maximum for the shared scale of the three production-against-
    injection charts. *)
Definition shared_max (prod_col : Prod.t -> float) (prod_df : list Prod.t)
    (inj_df : list Inj.t) (prod_wells inj_wells : list string) : float :=
  let max_val := 0%float in
  let max_val :=
    if truthy prod_wells
    then py_max max_val (series_max (map prod_col (prod_of_wells prod_df prod_wells)))
    else max_val in
  let max_val :=
    if truthy inj_wells
    then py_max max_val
           (series_max (map Inj.Water_Inj_M3 (inj_of_wells inj_df inj_wells)))
    else max_val in
  max_val.

(** The injection lines shared by [plot_water_inj_prod] and
    [plot_gas_inj_prod]. *)
Definition water_injection_line (inj_df : list Inj.t) (color : option string)
    (well : string) : trace datetime :=
  let data0 := inj_of_well inj_df well in
  {| kind := Scatter;
     x := to_datetime (map Inj.Date data0);
     y := map Inj.Water_Inj_M3 data0;
     name := "Water Injection into Well " ++ well;
     mode := Some "lines+markers";
     yaxis := None;
     line_color := color;
     marker_color := None;
     opacity := None |}.

Definition plot_water_inj_prod (prod_df : list Prod.t) (inj_df : list Inj.t)
    (prod_wells inj_wells : list string) : figure datetime :=
  let bars :=
    map (fun well =>
           let data0 := prod_of_well prod_df well in
           {| kind := Bar;
              x := to_datetime (map Prod.Date data0);
              y := map Prod.Water_M3 data0;
              name := "Water Production from well " ++ well;
              mode := None;
              yaxis := Some "y2";
              line_color := None;
              marker_color := None;
              opacity := None |}) prod_wells in
  let lines := map (water_injection_line inj_df None) inj_wells in
  let max_val := shared_max Prod.Water_M3 prod_df inj_df prod_wells inj_wells in
  {| data := bars ++ lines;
     fig_layout :=
       {| title := "Water Injection vs Water Production History";
          xaxis_title := "Date (month)";
          layout_yaxis :=
            {| axis_title := "Water Injection M3"; range := y_range max_val;
               overlaying := None; side := None |};
          layout_yaxis2 :=
            {| axis_title := "Water Production M3"; range := y_range max_val;
               overlaying := Some "y"; side := Some "right" |};
          barmode := Some "overlay" |} |}.

Definition plot_oil_inj_prod (prod_df : list Prod.t) (inj_df : list Inj.t)
    (prod_wells inj_wells : list string) : figure datetime :=
  let oil :=
    map (fun iw : nat * string =>
           let (i, well) := iw in
           let data0 := prod_of_well prod_df well in
           {| kind := Scatter;
              x := to_datetime (map Prod.Date data0);
              y := map Prod.Oil_M3 data0;
              name := "Oil Production from well " ++ well;
              mode := Some "lines+markers";
              yaxis := Some "y2";
              line_color := color_if (i =? 0) "brown";
              marker_color := None;
              opacity := None |}) (enumerate prod_wells) in
  let lines :=
    map (fun jw : nat * string =>
           let (j, well) := jw in
           water_injection_line inj_df (color_if (j =? 0) "blue") well)
        (enumerate inj_wells) in
  let max_val := shared_max Prod.Oil_M3 prod_df inj_df prod_wells inj_wells in
  {| data := oil ++ lines;
     fig_layout :=
       {| title := "Water Injection vs Oil Production History";
          xaxis_title := "Date (month)";
          layout_yaxis :=
            {| axis_title := "Water Injection M3"; range := y_range max_val;
               overlaying := None; side := None |};
          layout_yaxis2 :=
            {| axis_title := "Oil Production M3"; range := y_range max_val;
               overlaying := Some "y"; side := Some "right" |};
          barmode := None |} |}.

Definition plot_gas_inj_prod (prod_df : list Prod.t) (inj_df : list Inj.t)
    (prod_wells inj_wells : list string) : figure datetime :=
  let bars :=
    map (fun iw : nat * string =>
           let (i, well) := iw in
           let data0 := prod_of_well prod_df well in
           {| kind := Bar;
              x := to_datetime (map Prod.Date data0);
              y := map Prod.Gas_E3M3 data0;
              name := "Gas Production from well " ++ well;
              mode := None;
              yaxis := Some "y2";
              line_color := None;
              marker_color := color_if (i =? 0) "green";
              opacity := None |}) (enumerate prod_wells) in
  let lines := map (water_injection_line inj_df None) inj_wells in
  let max_val := shared_max Prod.Gas_E3M3 prod_df inj_df prod_wells inj_wells in
  {| data := bars ++ lines;
     fig_layout :=
       {| title := "Water Injection vs Gas Production History";
          xaxis_title := "Date (month)";
          layout_yaxis :=
            {| axis_title := "Water Injection M3"; range := y_range max_val;
               overlaying := None; side := None |};
          layout_yaxis2 :=
            {| axis_title := "Gas Production M3"; range := y_range max_val;
               overlaying := Some "y"; side := Some "right" |};
          barmode := Some "overlay" |} |}.

(** The water bar shared by [plot_oil_water_prod] and
    [plot_gas_water_prod]. *)
Definition water_production_bar (prod_df : list Prod.t) (well : string)
    : trace datetime :=
  let data0 := prod_of_well prod_df well in
  {| kind := Bar;
     x := to_datetime (map Prod.Date data0);
     y := map Prod.Water_M3 data0;
     name := "Water Production " ++ well;
     mode := None;
     yaxis := Some "y2";
     line_color := None;
     marker_color := None;
     opacity := Some 0.5%float |}.

(** The maximum for the shared scale of the two production-only charts. *)
Definition prod_max (prod_col : Prod.t -> float) (prod_df : list Prod.t)
    (prod_wells : list string) : float :=
  if truthy prod_wells
  then py_max (series_max (map prod_col (prod_of_wells prod_df prod_wells)))
              (series_max (map Prod.Water_M3 (prod_of_wells prod_df prod_wells)))
  else 0%float.

Definition plot_oil_water_prod (prod_df : list Prod.t)
    (prod_wells : list string) : figure datetime :=
  let traces :=
    flat_map (fun well =>
      let data0 := prod_of_well prod_df well in
      let oil_color := color_if (List.length prod_wells =? 1) "brown" in
      [ {| kind := Scatter;
           x := to_datetime (map Prod.Date data0);
           y := map Prod.Oil_M3 data0;
           name := "Oil Production " ++ well;
           mode := Some "lines+markers";
           yaxis := Some "y1";
           line_color := oil_color;
           marker_color := None;
           opacity := None |};
        water_production_bar prod_df well ]) prod_wells in
  let max_val := prod_max Prod.Oil_M3 prod_df prod_wells in
  {| data := traces;
     fig_layout :=
       {| title := "Oil vs Water Production History";
          xaxis_title := "Date (month)";
          layout_yaxis :=
            {| axis_title := "Oil Production M3"; range := y_range max_val;
               overlaying := None; side := None |};
          layout_yaxis2 :=
            {| axis_title := "Water Production M3"; range := y_range max_val;
               overlaying := Some "y"; side := Some "right" |};
          barmode := Some "overlay" |} |}.

Definition plot_gas_water_prod (prod_df : list Prod.t)
    (prod_wells : list string) : figure datetime :=
  let traces :=
    flat_map (fun iw : nat * string =>
      let (i, well) := iw in
      let data0 := prod_of_well prod_df well in
      [ {| kind := Scatter;
           x := to_datetime (map Prod.Date data0);
           y := map Prod.Gas_E3M3 data0;
           name := "Gas Production " ++ well;
           mode := Some "lines+markers";
           yaxis := Some "y1";
           line_color := color_if (i =? 0) "green";
           marker_color := None;
           opacity := None |};
        water_production_bar prod_df well ]) (enumerate prod_wells) in
  let max_val := prod_max Prod.Gas_E3M3 prod_df prod_wells in
  {| data := traces;
     fig_layout :=
       {| title := "Gas vs Water Production History";
          xaxis_title := "Date (month)";
          layout_yaxis :=
            {| axis_title := "Gas Production M3"; range := y_range max_val;
               overlaying := None; side := None |};
          layout_yaxis2 :=
            {| axis_title := "Water Production M3"; range := y_range max_val;
               overlaying := Some "y"; side := Some "right" |};
          barmode := Some "overlay" |} |}.

End Builders.

(* ------------------------------------------------------------------ *)
(** ** The shared scale, as the specification words it *)

(** A volume as the data model has it: not negative, or missing. *)
Definition volume_ok (v : float) : bool :=
  PrimFloat.is_nan v || (0 <=? v)%float.

(** The values the shared scale is taken over: the selected production
    wells' values of the chart's production column, then the selected
    injection wells' "Water Inj M3". *)
Definition selected_values (prod_col : Prod.t -> float) (prod_df : list Prod.t)
    (inj_df : list Inj.t) (prod_wells inj_wells : list string) : list float :=
  map prod_col (prod_of_wells prod_df prod_wells)
  ++ map Inj.Water_Inj_M3 (inj_of_wells inj_df inj_wells).

(** [m] is the maximum of [vals], missing values left out; with no value
    at all the scale is 0. *)
Definition is_shared_maximum (m : float) (vals : list float) : Prop :=
  (forall v, In v vals -> PrimFloat.is_nan v = false -> (v <=? m)%float = true) /\
  ((exists v, In v vals /\ (v =? m)%float = true) \/
   ((forall v, In v vals -> PrimFloat.is_nan v = true) /\ m = 0%float)).

(** [m] is the maximum of [vals], missing values left out: one of the
    values, not missing, and no value that is not missing exceeds it. *)
Definition is_maximum_of (m : float) (vals : list float) : Prop :=
  In m vals /\ PrimFloat.is_nan m = false /\
  forall v, In v vals -> PrimFloat.is_nan v = false -> (v <=? m)%float = true.

(** A figure has a trace of the given kind and name with no data point. *)
Definition has_empty_trace (datetime : Type) (fig : figure datetime)
    (k : trace_type) (nm : string) : Prop :=
  exists t, In t (data fig) /\ kind t = k /\ name t = nm /\
            x t = [] /\ y t = [].

(** Both y-axes of a figure have the range [[0, m]]. *)
Definition both_axes_range (datetime : Type) (fig : figure datetime)
    (m : float) : Prop :=
  range (layout_yaxis (fig_layout fig)) = (0%float, m) /\
  range (layout_yaxis2 (fig_layout fig)) = (0%float, m).

(* ------------------------------------------------------------------ *)
(** ** [plot_well_map] *)

(** A Python dict from strings to strings, as its items. *)
Fixpoint dict_get (d : list (string * string)) (k : string) : option string :=
  match d with
  | (k', v) :: d' => if String.eqb k' k then Some v else dict_get d' k
  | [] => None
  end.

Definition color_map : list (string * string) :=
  [("Production", "blue"); ("Injection", "red"); ("Unknown", "gray")].

Record map_axis : Type := {
  showgrid : bool;
  zeroline : bool;
  scaleanchor : option string;
  scaleratio : option nat
}.

(** The [px.scatter] call of [plot_well_map], with the trace and layout
    updates made on its result; an argument that is not passed is [None]. *)
Record map_figure : Type := {
  map_frame : list prepared;
  map_x : string;
  map_y : string;
  map_color : string;
  map_symbol : string;
  map_hover_data : option (list string);
  map_text : option string;
  map_title : string;
  map_labels : list (string * string);
  map_color_discrete_map : list (string * string);
  map_textposition : option string;
  map_xaxis : map_axis;
  map_yaxis : map_axis;
  map_legend_title : string
}.

Definition plot_well_map (df : list prepared) (label_mode : string) : map_figure :=
  let hover := String.eqb label_mode "Hover tooltips" in
  {| map_frame := df;
     map_x := "plot_lon";
     map_y := "plot_lat";
     map_color := "Well_Type";
     map_symbol := "Deviation_Type";
     map_hover_data := if hover then Some ["Well_ID"; "UWI"] else None;
     map_text := if hover then None else Some "Well_ID";
     map_title := "Well Location Grid Map";
     map_labels := [("plot_lon", "Longitude"); ("plot_lat", "Latitude")];
     map_color_discrete_map := color_map;
     map_textposition := if hover then None else Some "top center";
     map_xaxis := {| showgrid := true; zeroline := false;
                     scaleanchor := None; scaleratio := None |};
     map_yaxis := {| showgrid := true; zeroline := false;
                     scaleanchor := Some "x"; scaleratio := Some 1 |};
     map_legend_title := "Well Type / Deviation" |}.

(** A text column of the prepared table, by its name. *)
Definition text_column (col : string) (r : prepared) : option string :=
  if String.eqb col "UWI" then Some (Well.UWI (source r))
  else if String.eqb col "Well_Type" then Some (Well_Type r)
  else if String.eqb col "Deviation_Type" then Some (Deviation_Type r)
  else None.

(** The colour [px.scatter] gives the marker of a row: the entry of
    [color_discrete_map] for the row's value in the colour column; [None]
    when the map has no entry and the library falls back on its own
    sequence. *)
Definition marker_color_of (fig : map_figure) (r : prepared) : option string :=
  match text_column (map_color fig) r with
  | Some v => dict_get (map_color_discrete_map fig) v
  | None => None
  end.

(* ------------------------------------------------------------------ *)
(** ** The page *)

(** [sorted(l)] on strings: each element goes in after the elements that
    are not greater, so equal elements keep their order. *)
Fixpoint insert_sorted (a : string) (l : list string) : list string :=
  match l with
  | b :: l' => if String.ltb a b then a :: l else b :: insert_sorted a l'
  | [] => [a]
  end.

Definition sorted (l : list string) : list string :=
  fold_left (fun acc a => insert_sorted a acc) l [].

(** [col.unique()]: the values in the order of their first occurrence. *)
Fixpoint unique_from (seen col : list string) : list string :=
  match col with
  | a :: col' =>
      if Py.contains seen a then unique_from seen col'
      else a :: unique_from (a :: seen) col'
  | [] => []
  end.

Definition unique (col : list string) : list string := unique_from [] col.

(** An uploaded file: its name, and what [pd.read_csv] makes of it, the
    table or the text of the exception it raises. *)
Record upload (T : Type) : Type := {
  file_name : string;
  read_csv : T + string
}.

(** What the user has set on the page: the three uploaders, the two radio
    buttons and the two multi-selects. *)
Record widgets : Type := {
  welllist_file : option (upload well_table);
  prod_file : option (upload (list Prod.t));
  inj_file : option (upload (list Inj.t));
  include_unknown_radio : string;
  label_mode_radio : string;
  inj_wells_select : list string;
  prod_wells_select : list string
}.

(** The prompt shown while a file is missing. *)
Definition upload_prompt : string :=
  "Please upload all three files to generate the map and plots.".

Section Page.

Variable datetime : Type.
Variable parse_datetime : string -> option datetime.

(** What a run of the script puts on the page, in order. *)
Inductive element : Type :=
| Title (text : string)
| SidebarImage (path : string)
| FileUploader (label : string)
| Error (message : string)
| Info (message : string)
| Subheader (text : string)
| Radio (label : string) (options : list string) (index : nat)
| MapChart (fig : map_figure)
| DataFrame (rows : list (string * nat * string * string))
| Multiselect (label : string) (options : list string)
| Chart (fig : figure datetime).

(** [read_csv_file]: the table, or [None] with the error shown. *)
Definition read_csv_file (T : Type) (file : upload T) : option T * list element :=
  match read_csv file with
  | inl df => (Some df, [])
  | inr e =>
      (None, [Error ("Error reading file " ++ file_name file ++ ": " ++ e)])
  end.

(** The charts of the last block of the script, for the two selections. *)
Definition history_charts (df_prod : list Prod.t) (df_inj : list Inj.t)
    (prod_wells inj_wells : list string) : list (figure datetime) :=
  if truthy prod_wells || truthy inj_wells then
    (if truthy prod_wells && truthy inj_wells then
       [ plot_water_inj_prod parse_datetime df_prod df_inj prod_wells inj_wells;
         plot_gas_inj_prod parse_datetime df_prod df_inj prod_wells inj_wells;
         plot_oil_inj_prod parse_datetime df_prod df_inj prod_wells inj_wells ]
     else if truthy inj_wells then
       [ plot_water_inj_prod parse_datetime df_prod df_inj prod_wells inj_wells ]
     else [])
    ++ (if truthy prod_wells then
          [ plot_oil_water_prod parse_datetime df_prod prod_wells;
            plot_gas_water_prod parse_datetime df_prod prod_wells ]
        else [])
  else [].

Definition page_head : list element :=
  [ Title "Production/Injection Analysis";
    SidebarImage "./data/logo.png";
    FileUploader "Upload Welllist CSV";
    FileUploader "Upload Production History CSV";
    FileUploader "Upload Injection History CSV" ].

(** The options of the two multi-selects. *)
Definition inj_options (df_inj : list Inj.t) : list string :=
  sorted (unique (map Inj.UWI df_inj)).

Definition prod_options (df_prod : list Prod.t) : list string :=
  sorted (unique (map Prod.UWI df_prod)).

(** One run of the script: the page it draws and the state [np.random] is
    left in. *)
Definition page (w : widgets) (g : rng) : list element * rng :=
  match welllist_file w, prod_file w, inj_file w with
  | Some wf, Some pf, Some jf =>
      let (df_welllist, e1) := read_csv_file wf in
      let (df_prod, e2) := read_csv_file pf in
      let (df_inj, e3) := read_csv_file jf in
      match df_welllist, df_prod, df_inj with
      | Some df_welllist, Some df_prod, Some df_inj =>
          let include_unknown := String.eqb (include_unknown_radio w) "Yes" in
          let label_mode := label_mode_radio w in
          let (df_wells, g') :=
            prepare_well_data df_welllist df_prod df_inj include_unknown g in
          let fig_map := plot_well_map df_wells label_mode in
          let inj_wells := inj_wells_select w in
          let prod_wells := prod_wells_select w in
          (page_head ++ e1 ++ e2 ++ e3
           ++ [ Subheader "Map Display Settings";
                Radio "Include Unknown Well_Type?" ["Yes"; "No"] 1;
                Radio "Label Display Mode" ["Hover tooltips"; "Visible labels"] 1;
                MapChart fig_map;
                Subheader "Well ID to UWI Mapping";
                DataFrame
                  (map (fun r => (Well.UWI (source r), Well_ID r, Well_Type r,
                                  Deviation_Type r)) df_wells);
                Subheader "Select Wells for Plots";
                Multiselect "Select Injection Wells (UWI)" (inj_options df_inj);
                Multiselect "Select Production Wells (UWI)" (prod_options df_prod) ]
           ++ map Chart (history_charts df_prod df_inj prod_wells inj_wells),
           g')
      | _, _, _ => (page_head ++ e1 ++ e2 ++ e3, g)
      end
  | _, _, _ => (page_head ++ [Info upload_prompt], g)
  end.

(** The history charts on a page. *)
Definition charts_of (page0 : list element) : list (figure datetime) :=
  flat_map (fun e => match e with Chart fig => [fig] | _ => [] end) page0.

(** The error messages on a page. *)
Definition errors_of (page0 : list element) : list string :=
  flat_map (fun e => match e with Error m => [m] | _ => [] end) page0.

End Page.

(** The message [read_csv_file] shows for a file, if it shows one. *)
Definition read_error (T : Type) (file : upload T) : list string :=
  match read_csv file with
  | inl _ => []
  | inr e => [("Error reading file " ++ file_name file ++ ": " ++ e)%string]
  end.

(* ------------------------------------------------------------------ *)
(** ** Where a trace comes from *)

Section TraceOrigin.

Variable datetime : Type.
Variable parse_datetime : string -> option datetime.

(** The trace [t] plots the rows of one selected well: a production well's
    rows with one of the columns [cols] as [y], or an injection well's
    rows with "Water Inj M3" as [y]; [x] is the rows' dates. *)
Definition from_selection (cols : list (Prod.t -> float))
    (prod_df : list Prod.t) (inj_df : list Inj.t)
    (prod_wells inj_wells : list string) (t : trace datetime) : Prop :=
  (exists well col,
     In well prod_wells /\ In col cols /\
     y t = map col (prod_of_well prod_df well) /\
     x t = to_datetime parse_datetime (map Prod.Date (prod_of_well prod_df well)))
  \/
  (exists well,
     In well inj_wells /\
     y t = map Inj.Water_Inj_M3 (inj_of_well inj_df well) /\
     x t = to_datetime parse_datetime (map Inj.Date (inj_of_well inj_df well))).

End TraceOrigin.

(* ------------------------------------------------------------------ *)
(** ** Sample tables *)

Definition well_a : Well.t := Well.mk "100/01-01" (-80)%float 53%float (Str " hz").
Definition well_b : Well.t := Well.mk "100/02-02" (-80)%float 53%float NA.
Definition well_c : Well.t := Well.mk "100/03-03" (-81.5)%float 54.25%float (Str "V").

Definition sample_wells : well_table :=
  {| has_Deviation_Ind := true; wells := [well_a; well_b; well_c] |}.

Definition sample_prod : list Prod.t :=
  [ Prod.mk "100/01-01" (Str "2020-01-01") 10%float 4%float 1%float;
    Prod.mk "100/01-01" (Str "2020-02-01") 20%float 6%float 2%float;
    Prod.mk "100/03-03" (Str "no date") 7%float nan 3%float ].

Definition sample_inj : list Inj.t :=
  [ Inj.mk "100/01-01" (Str "2020-01-01") 30%float;
    Inj.mk "100/09-09" NA 12.5%float ].

Definition sample_rng : rng :=
  fun n =>
    match n with
    | 0 => 0.25%float
    | 1 => 0.75%float
    | 2 => 0.125%float
    | _ => 0.5%float
    end.

Definition sample_all : list prepared :=
  fst (prepare_well_data sample_wells sample_prod sample_inj true sample_rng).

Definition sample_kept : list prepared :=
  fst (prepare_well_data sample_wells sample_prod sample_inj false sample_rng).

Definition sample_first : prepared :=
  nth 0 sample_all (Build_prepared well_a "" "" 0 0 0).
Definition sample_second : prepared :=
  nth 1 sample_all (Build_prepared well_a "" "" 0 0 0).
Definition sample_third : prepared :=
  nth 2 sample_all (Build_prepared well_a "" "" 0 0 0).

(** Two wells at (-80.0, 53.0), and a generator whose every sample is 0.5. *)
Definition twin_wells : well_table :=
  {| has_Deviation_Ind := false;
     wells := [ Well.mk "100/01-01" (-80)%float 53%float NA;
                Well.mk "100/02-02" (-80)%float 53%float NA ] |}.

Definition half_samples : rng := fun _ => 0.5%float.

(** A stand-in for the date parser: every text is a date but "no date". *)
Definition sample_parse (s : string) : option string :=
  if String.eqb s "no date" then None else Some s.

(** The three sample tables uploaded and read, injection well "100/01-01"
    and production wells "100/03-03" and "100/01-01" selected. *)
Definition sample_widgets : widgets :=
  {| welllist_file := Some {| file_name := "wells.csv"; read_csv := inl sample_wells |};
     prod_file := Some {| file_name := "prod.csv"; read_csv := inl sample_prod |};
     inj_file := Some {| file_name := "inj.csv"; read_csv := inl sample_inj |};
     include_unknown_radio := "No";
     label_mode_radio := "Visible labels";
     inj_wells_select := ["100/01-01"];
     prod_wells_select := ["100/03-03"; "100/01-01"] |}.

(** A page with no file uploaded yet. *)
Definition empty_widgets : widgets :=
  {| welllist_file := None; prod_file := None; inj_file := None;
     include_unknown_radio := "No";
     label_mode_radio := "Visible labels";
     inj_wells_select := [];
     prod_wells_select := [] |}.

(** A well list with no two wells at the same place. *)
Definition spread_wells : well_table :=
  {| has_Deviation_Ind := true; wells := [well_a; well_c] |}.

(** A production table of a well that reports water only. *)
Definition water_only_prod : list Prod.t :=
  [ Prod.mk "100/07-07" (Str "2021-01-01") nan 5%float nan;
    Prod.mk "100/07-07" (Str "2021-02-01") nan 8%float nan ].

(** A production table whose water volumes are entered as negative
    adjustments. *)
Definition adjusted_prod : list Prod.t :=
  [ Prod.mk "100/09-09" (Str "2021-01-01") 0%float (-5)%float 0%float;
    Prod.mk "100/09-09" (Str "2021-02-01") 0%float (-2)%float 0%float ].

(** The same page with a production file that cannot be read. *)
Definition broken_widgets : widgets :=
  {| welllist_file := Some {| file_name := "wells.csv"; read_csv := inl sample_wells |};
     prod_file :=
       Some {| file_name := "prod.csv";
               read_csv := inr "No columns to parse from file" |};
     inj_file := Some {| file_name := "inj.csv"; read_csv := inl sample_inj |};
     include_unknown_radio := "No";
     label_mode_radio := "Visible labels";
     inj_wells_select := [];
     prod_wells_select := [] |}.

(* ------------------------------------------------------------------ *)
(** ** Order and equality of binary64 values *)

(** "Less than or equal" as a result of [SFcompare]. *)
Definition le_cmp (c : option comparison) : bool :=
  match c with
  | Some Lt | Some Eq => true
  | _ => false
  end.

Example strip_upper_sample : Py.upper (Py.strip "  hz well 	") = "HZ WELL".
Proof. reflexivity. Qed.

Example str_of_missing : deviation_of NA = "Vertical".
Proof. reflexivity. Qed.

Example series_max_skips_nan :
  series_max [nan; 4%float; nan; 6%float] = 6%float /\
  PrimFloat.is_nan (series_max [nan; nan]) = true /\
  py_max 0 nan = 0%float /\
  PrimFloat.is_nan (py_max nan 6) = true.
Proof. repeat split; reflexivity. Qed.

Lemma SFcompare_antisym a b :
  SFcompare b a = option_map CompOpp (SFcompare a b).
Proof.
  unfold SFcompare.
  destruct a as [s1|s1| |s1 m1 e1], b as [s2|s2| |s2 m2 e2];
    try destruct s1; try destruct s2; try reflexivity; simpl;
    change (PosDef.Pos.compare_cont Eq m2 m1) with (Pos.compare m2 m1);
    change (PosDef.Pos.compare_cont Eq m1 m2) with (Pos.compare m1 m2);
    rewrite (Z.compare_antisym e1 e2), (Pos.compare_antisym m1 m2);
    destruct (e1 ?= e2)%Z, (m1 ?= m2)%positive; reflexivity.
Qed.

Lemma SFcompare_refl a : a <> S754_nan -> SFcompare a a = Some Eq.
Proof.
  destruct a as [s|s| |s m e]; intros H; try destruct s; try reflexivity;
    try congruence; simpl;
    change (PosDef.Pos.compare_cont Eq m m) with (Pos.compare m m);
    now rewrite Z.compare_refl, Pos.compare_refl.
Qed.

Lemma SFcompare_trans a b c :
  le_cmp (SFcompare a b) = true -> le_cmp (SFcompare b c) = true ->
  le_cmp (SFcompare a c) = true.
Proof.
  unfold SFcompare, le_cmp.
  destruct a as [s1|s1| |s1 m1 e1], b as [s2|s2| |s2 m2 e2],
    c as [s3|s3| |s3 m3 e3];
    try destruct s1; try destruct s2; try destruct s3;
    try reflexivity; try discriminate; simpl;
    change (PosDef.Pos.compare_cont Eq m1 m2) with (Pos.compare m1 m2);
    change (PosDef.Pos.compare_cont Eq m2 m3) with (Pos.compare m2 m3);
    change (PosDef.Pos.compare_cont Eq m1 m3) with (Pos.compare m1 m3);
    destruct (Z.compare_spec e1 e2), (Z.compare_spec e2 e3),
      (Z.compare_spec e1 e3); try lia; try reflexivity; try discriminate;
    destruct (Pos.compare_spec m1 m2), (Pos.compare_spec m2 m3),
      (Pos.compare_spec m1 m3); simpl; try lia; try reflexivity;
    try discriminate.
Qed.

Lemma leb_cmp x y :
  (x <=? y)%float = le_cmp (SFcompare (Prim2SF x) (Prim2SF y)).
Proof.
  rewrite leb_spec. unfold SFleb, le_cmp.
  now destruct (SFcompare (Prim2SF x) (Prim2SF y)) as [[]|].
Qed.

Lemma is_nan_false x :
  PrimFloat.is_nan x = false <-> SFcompare (Prim2SF x) (Prim2SF x) = Some Eq.
Proof.
  unfold PrimFloat.is_nan. rewrite eqb_spec. unfold SFeqb.
  destruct (SFcompare (Prim2SF x) (Prim2SF x)) as [[]|]; simpl;
    split; congruence.
Qed.

Lemma compare_not_nan x y c :
  SFcompare (Prim2SF x) (Prim2SF y) = Some c ->
  PrimFloat.is_nan x = false /\ PrimFloat.is_nan y = false.
Proof.
  intros H. rewrite !is_nan_false.
  split; apply SFcompare_refl; intros E; rewrite E in H;
    [|destruct (Prim2SF x)]; discriminate H.
Qed.

Lemma compare_defined x y :
  PrimFloat.is_nan x = false -> PrimFloat.is_nan y = false ->
  exists c, SFcompare (Prim2SF x) (Prim2SF y) = Some c.
Proof.
  rewrite !is_nan_false. intros Hx Hy.
  destruct (Prim2SF x), (Prim2SF y); try discriminate; simpl; eauto.
Qed.

Lemma float_eqb_sym x y : (x =? y)%float = (y =? x)%float.
Proof.
  rewrite !eqb_spec. unfold SFeqb.
  rewrite (SFcompare_antisym (Prim2SF x) (Prim2SF y)).
  now destruct (SFcompare (Prim2SF x) (Prim2SF y)) as [[]|].
Qed.

Lemma float_leb_refl x : PrimFloat.is_nan x = false -> (x <=? x)%float = true.
Proof. rewrite leb_cmp, is_nan_false. now intros ->. Qed.

Lemma float_leb_trans x y z :
  (x <=? y)%float = true -> (y <=? z)%float = true -> (x <=? z)%float = true.
Proof. rewrite !leb_cmp. apply SFcompare_trans. Qed.

Lemma float_leb_not_nan x y :
  (x <=? y)%float = true ->
  PrimFloat.is_nan x = false /\ PrimFloat.is_nan y = false.
Proof.
  rewrite leb_cmp.
  destruct (SFcompare (Prim2SF x) (Prim2SF y)) as [c|] eqn:E;
    [|discriminate]. intros _. exact (compare_not_nan _ _ E).
Qed.

Lemma float_ltb_leb x y : (x <? y)%float = true -> (x <=? y)%float = true.
Proof.
  rewrite leb_cmp, ltb_spec. unfold SFltb.
  now destruct (SFcompare (Prim2SF x) (Prim2SF y)) as [[]|].
Qed.

Lemma float_nltb_leb x y :
  PrimFloat.is_nan x = false -> PrimFloat.is_nan y = false ->
  (x <? y)%float = false -> (y <=? x)%float = true.
Proof.
  intros Hx Hy. destruct (compare_defined _ _ Hx Hy) as (c & E).
  rewrite leb_cmp, ltb_spec, SFcompare_antisym. unfold SFltb.
  rewrite E. now destruct c.
Qed.

Lemma float_leb_antisym x y :
  (x <=? y)%float = true -> (y <=? x)%float = true -> (x =? y)%float = true.
Proof.
  rewrite !leb_cmp, eqb_spec, (SFcompare_antisym (Prim2SF x) (Prim2SF y)).
  unfold SFeqb.
  now destruct (SFcompare (Prim2SF x) (Prim2SF y)) as [[]|].
Qed.

Lemma float_same_sym x y : float_same x y = float_same y x.
Proof.
  unfold float_same.
  now rewrite float_eqb_sym, (andb_comm (PrimFloat.is_nan x)).
Qed.

Lemma same_coords_sym k1 k2 : same_coords k1 k2 = same_coords k2 k1.
Proof.
  unfold same_coords.
  now rewrite (float_same_sym (fst k1)), (float_same_sym (snd k1)).
Qed.

(* ------------------------------------------------------------------ *)
(** ** Columns and rows *)

Lemma make_frame_nth_error df wt dt ids lon lat i r :
  nth_error (make_frame df wt dt ids lon lat) i = Some r ->
  nth_error df i = Some (source r) /\
  nth_error wt i = Some (Well_Type r) /\
  nth_error dt i = Some (Deviation_Type r) /\
  nth_error ids i = Some (Well_ID r) /\
  nth_error lon i = Some (plot_lon r) /\
  nth_error lat i = Some (plot_lat r).
Proof.
  revert wt dt ids lon lat i.
  induction df as [|w df IH]; intros wt dt ids lon lat i H.
  - destruct i; discriminate H.
  - destruct wt as [|a wt], dt as [|b dt], ids as [|k ids],
      lon as [|x lon], lat as [|y lat];
      try (destruct i; discriminate H).
    destruct i as [|i]; simpl in H.
    + injection H as <-. simpl. repeat split.
    + simpl. now apply IH.
Qed.

Lemma make_frame_length df wt dt ids lon lat :
  List.length wt = List.length df -> List.length dt = List.length df ->
  List.length ids = List.length df -> List.length lon = List.length df ->
  List.length lat = List.length df ->
  List.length (make_frame df wt dt ids lon lat) = List.length df.
Proof.
  revert wt dt ids lon lat.
  induction df as [|w df IH]; intros wt dt ids lon lat H1 H2 H3 H4 H5.
  - reflexivity.
  - destruct wt, dt, ids, lon, lat; try discriminate.
    simpl in *. f_equal. apply IH; congruence.
Qed.

Lemma loc_set_length A (mask : list bool) (col : list A) v :
  List.length (loc_set mask col v) = List.length col.
Proof.
  revert col; induction mask as [|m mask IH]; intros [|x col]; simpl; auto.
Qed.

Lemma loc_add_length mask col offsets :
  List.length (loc_add mask col offsets) = List.length col.
Proof.
  revert col offsets; induction mask as [|m mask IH]; intros col offsets;
    [destruct col; reflexivity|].
  destruct m, col as [|x col], offsets as [|o offsets]; simpl;
    try reflexivity; f_equal; apply IH.
Qed.

(** The two classification passes, row by row. *)
Lemma well_type_column (df : list Well.t) prod_uwi inj_uwi :
  loc_set (isin (map Well.UWI df) inj_uwi)
    (loc_set (isin (map Well.UWI df) prod_uwi)
       (map (fun _ => "Unknown") df) "Production") "Injection"
  = map (fun w => well_type_of prod_uwi inj_uwi (Well.UWI w)) df.
Proof.
  induction df as [|w df IH]; simpl; [reflexivity|].
  rewrite IH. unfold well_type_of.
  destruct (Py.contains inj_uwi (Well.UWI w)),
    (Py.contains prod_uwi (Well.UWI w)); reflexivity.
Qed.

Lemma nth_error_seq_from start len i k :
  nth_error (seq start len) i = Some k -> k = start + i /\ i < len.
Proof.
  revert start i; induction len as [|len IH]; intros start i H.
  - destruct i; discriminate H.
  - destruct i as [|i]; simpl in H.
    + injection H as <-. lia.
    + apply IH in H. lia.
Qed.

(** What [df.loc[mask, c] += offsets] leaves in row [i]: a marked row takes
    the offset whose rank is the number of marked rows before it. *)
Lemma loc_add_nth_error mask col offsets i x :
  List.length mask = List.length col ->
  nth_error col i = Some x ->
  nth_error (loc_add mask col offsets) i =
    Some (if nth i mask false
          then match nth_error offsets (mask_sum (firstn i mask)) with
               | Some o => (x + o)%float
               | None => x
               end
          else x).
Proof.
  revert col offsets i.
  induction mask as [|m mask IH]; intros col offsets i Hlen Hx.
  - destruct col; [destruct i|]; discriminate.
  - destruct col as [|y col]; [discriminate|].
    injection Hlen as Hlen.
    destruct i as [|i]; simpl in Hx.
    + injection Hx as ->. destruct m, offsets; reflexivity.
    + destruct m; [destruct offsets as [|o offsets]|]; simpl;
        rewrite (IH _ _ _ Hlen Hx); try reflexivity.
      destruct (nth i mask false); [|reflexivity].
      now destruct (mask_sum (firstn i mask)).
Qed.

Lemma mask_sum_firstn_lt mask i :
  nth i mask false = true -> mask_sum (firstn i mask) < mask_sum mask.
Proof.
  revert i; induction mask as [|m mask IH]; intros [|i] H; simpl in *;
    try discriminate.
  - subst m. lia.
  - apply IH in H. lia.
Qed.

Lemma mask_sum_firstn_mono mask i j :
  i < j -> nth i mask false = true ->
  mask_sum (firstn i mask) < mask_sum (firstn j mask).
Proof.
  revert i j; induction mask as [|m mask IH]; intros [|i] [|j] Hij H;
    simpl in *; try discriminate; try lia.
  - subst m. lia.
  - assert (Hlt : i < j) by lia.
    specialize (IH _ _ Hlt H). lia.
Qed.

Lemma uniform_nth_error low high size g j :
  j < size ->
  nth_error (fst (uniform low high size g)) j
  = Some (low + (high - low) * g j)%float.
Proof.
  intros Hj. unfold uniform; simpl.
  rewrite nth_error_map.
  replace (nth_error (seq 0 size) j) with (Some j); [reflexivity|].
  symmetry. rewrite nth_error_nth' with (d := 0) by now rewrite length_seq.
  now rewrite seq_nth.
Qed.

(** The array drawn for a mask has the length numpy asks for. *)
Lemma uniform_mask_length low high mask g :
  List.length (fst (uniform low high (mask_sum mask) g)) = mask_sum mask.
Proof. unfold uniform; simpl. now rewrite length_map, length_seq. Qed.

Lemma In_firstn_nth_error A (l : list A) i x :
  In x (firstn i l) <-> exists j, j < i /\ nth_error l j = Some x.
Proof.
  revert i; induction l as [|a l IH]; intros i.
  - rewrite firstn_nil. split; [intros []|].
    intros (j & _ & H). destruct j; discriminate.
  - destruct i as [|i]; simpl.
    + split; [intros []|]. intros (j & Hj & _). lia.
    + rewrite IH. split.
      * intros [->|(j & Hj & H)]; [exists 0|exists (S j)]; split;
          try lia; first [assumption | reflexivity].
      * intros (j & Hj & H). destruct j as [|j]; simpl in H.
        -- left. congruence.
        -- right. exists j. split; [lia|assumption].
Qed.

Lemma In_skipn_nth_error A (l : list A) i x :
  In x (skipn i l) <-> exists j, i <= j /\ nth_error l j = Some x.
Proof.
  revert i; induction l as [|a l IH]; intros i.
  - rewrite skipn_nil. split; [intros []|].
    intros (j & _ & H). destruct j; discriminate.
  - destruct i as [|i].
    + change (skipn 0 (a :: l)) with (a :: l). split.
      * intros H. apply In_nth_error in H as (j & H).
        exists j. split; [lia|assumption].
      * intros (j & _ & H). now apply nth_error_In in H.
    + simpl. rewrite IH. split.
      * intros (j & Hj & H). exists (S j). split; [lia|assumption].
      * intros (j & Hj & H). destruct j as [|j]; [lia|].
        exists j. split; [lia|assumption].
Qed.

Lemma duplicated_from_nth_error before keys i k :
  nth_error keys i = Some k ->
  nth_error (duplicated_from before keys) i =
    Some (existsb (same_coords k) (List.rev (firstn i keys) ++ before)
          || existsb (same_coords k) (skipn (S i) keys)).
Proof.
  revert before i; induction keys as [|k0 after IH]; intros before i H.
  - destruct i; discriminate.
  - destruct i as [|i]; simpl in H.
    + injection H as ->. reflexivity.
    + simpl duplicated_from. simpl nth_error. rewrite (IH _ _ H).
      simpl firstn. simpl List.rev. rewrite <- app_assoc. reflexivity.
Qed.

Lemma duplicated_length keys :
  List.length (duplicated keys) = List.length keys.
Proof.
  unfold duplicated. generalize (@nil (float * float)).
  induction keys as [|k keys IH]; intros before; simpl; auto.
Qed.

Lemma combine_coords (df : list Well.t) :
  combine (map Well.Longitude_NAD_83 df) (map Well.Latitude_NAD_83 df)
  = map coords df.
Proof. induction df as [|w df IH]; simpl; [|rewrite IH]; reflexivity. Qed.

Lemma dup_mask_length df : List.length (dup_mask_of df) = List.length df.
Proof.
  unfold dup_mask_of. now rewrite duplicated_length, combine_coords, length_map.
Qed.

(** [duplicated(keep=False)] marks exactly the rows that have the
    coordinates of some other row. *)
Lemma dup_mask_spec df i w :
  nth_error df i = Some w ->
  nth i (dup_mask_of df) false = true <->
  exists j w', j <> i /\ nth_error df j = Some w' /\
               same_coords (coords w) (coords w') = true.
Proof.
  intros Hw. unfold dup_mask_of, duplicated. rewrite combine_coords.
  assert (Hk : nth_error (map coords df) i = Some (coords w))
    by (rewrite nth_error_map, Hw; reflexivity).
  erewrite nth_error_nth by (apply duplicated_from_nth_error; exact Hk).
  rewrite app_nil_r, orb_true_iff, !existsb_exists. split.
  - intros [(k & Hin & Hs)|(k & Hin & Hs)].
    + apply in_rev, In_firstn_nth_error in Hin as (j & Hj & Hin).
      rewrite nth_error_map in Hin.
      destruct (nth_error df j) as [w'|] eqn:E; [|discriminate].
      injection Hin as <-. exists j, w'. repeat split; try assumption; lia.
    + apply In_skipn_nth_error in Hin as (j & Hj & Hin).
      rewrite nth_error_map in Hin.
      destruct (nth_error df j) as [w'|] eqn:E; [|discriminate].
      injection Hin as <-. exists j, w'. repeat split; try assumption; lia.
  - intros (j & w' & Hne & Hj & Hs).
    assert (Hkj : nth_error (map coords df) j = Some (coords w'))
      by (rewrite nth_error_map, Hj; reflexivity).
    destruct (Nat.lt_ge_cases j i) as [Hlt|Hge].
    + left. exists (coords w'). split; [|assumption].
      apply in_rev. rewrite rev_involutive.
      apply In_firstn_nth_error. now exists j.
    + right. exists (coords w'). split; [|assumption].
      apply In_skipn_nth_error. exists j. split; [lia|assumption].
Qed.

Lemma make_frame_source df wt dt ids lon lat :
  List.length wt = List.length df -> List.length dt = List.length df ->
  List.length ids = List.length df -> List.length lon = List.length df ->
  List.length lat = List.length df ->
  map source (make_frame df wt dt ids lon lat) = df.
Proof.
  revert wt dt ids lon lat.
  induction df as [|w df IH]; intros wt dt ids lon lat H1 H2 H3 H4 H5.
  - reflexivity.
  - destruct wt, dt, ids, lon, lat; try discriminate.
    simpl in *. f_equal. apply IH; congruence.
Qed.

Lemma Some_inj A (x y : A) : Some x = Some y -> x = y.
Proof. congruence. Qed.

Lemma contains_In values x : Py.contains values x = true <-> In x values.
Proof.
  unfold Py.contains. rewrite existsb_exists. split.
  - intros (y & Hy & E). apply String.eqb_eq in E. now subst.
  - intros H. exists x. split; [assumption|apply String.eqb_refl].
Qed.

(* ------------------------------------------------------------------ *)
(** ** The rows of the prepared table *)

Section Prepared.

Variable welllist : well_table.
Variable prod : list Prod.t.
Variable inj : list Inj.t.
Variable g : rng.

Let df := wells welllist.
Let mask := dup_mask_of df.
Let k := mask_sum mask.

Lemma prepared_all_columns :
  prepared_all welllist prod inj g =
  make_frame df
    (map (fun w => well_type_of (map Prod.UWI prod) (map Inj.UWI inj) (Well.UWI w)) df)
    (if has_Deviation_Ind welllist
     then map deviation_of (map Well.Deviation_Ind df)
     else map (fun _ => "Unknown") df)
    (seq 1 (List.length df))
    (loc_add mask (map Well.Longitude_NAD_83 df)
       (fst (uniform jitter_low jitter_high k g)))
    (loc_add mask (map Well.Latitude_NAD_83 df)
       (fst (uniform jitter_low jitter_high k
               (snd (uniform jitter_low jitter_high k g))))).
Proof.
  unfold prepared_all, prepare_well_data.
  rewrite well_type_column. reflexivity.
Qed.

Lemma prepare_filter include_unknown :
  fst (prepare_well_data welllist prod inj include_unknown g) =
  if include_unknown then prepared_all welllist prod inj g
  else filter (fun r => negb (String.eqb (Well_Type r) "Unknown"))
         (prepared_all welllist prod inj g).
Proof. destruct include_unknown; reflexivity. Qed.

(** Both calls to [np.random.uniform] are made before the filter: the
    generator is [2 * k] draws further, whatever [include_unknown] is. *)
Lemma prepare_consumes_draws include_unknown :
  snd (prepare_well_data welllist prod inj include_unknown g) =
  fun n => g (k + (k + n)).
Proof. reflexivity. Qed.

Lemma prepared_all_length :
  List.length (prepared_all welllist prod inj g) = List.length df.
Proof.
  rewrite prepared_all_columns. apply make_frame_length.
  - now rewrite length_map.
  - destruct (has_Deviation_Ind welllist); now rewrite ?length_map.
  - now rewrite length_seq.
  - now rewrite loc_add_length, length_map.
  - now rewrite loc_add_length, length_map.
Qed.

Lemma prepared_all_source :
  map source (prepared_all welllist prod inj g) = df.
Proof.
  rewrite prepared_all_columns. apply make_frame_source.
  - now rewrite length_map.
  - destruct (has_Deviation_Ind welllist); now rewrite ?length_map.
  - now rewrite length_seq.
  - now rewrite loc_add_length, length_map.
  - now rewrite loc_add_length, length_map.
Qed.

(** Row [i] of the table before the filter, column by column. *)
Lemma prepared_all_row i r :
  nth_error (prepared_all welllist prod inj g) i = Some r ->
  nth_error df i = Some (source r) /\
  Well_Type r =
    well_type_of (map Prod.UWI prod) (map Inj.UWI inj) (Well.UWI (source r)) /\
  Deviation_Type r =
    (if has_Deviation_Ind welllist
     then deviation_of (Well.Deviation_Ind (source r)) else "Unknown") /\
  Well_ID r = S i /\
  plot_lon r =
    (if nth i mask false
     then (Well.Longitude_NAD_83 (source r)
           + jitter_draw (g (mask_sum (firstn i mask))))%float
     else Well.Longitude_NAD_83 (source r)) /\
  plot_lat r =
    (if nth i mask false
     then (Well.Latitude_NAD_83 (source r)
           + jitter_draw (g (k + mask_sum (firstn i mask))%nat))%float
     else Well.Latitude_NAD_83 (source r)).
Proof.
  rewrite prepared_all_columns. intros H.
  apply make_frame_nth_error in H as (Hs & Hw & Hd & Hi & Hx & Hy).
  assert (Hm : List.length mask = List.length df) by apply dup_mask_length.
  split; [assumption|]. split; [|split; [|split; [|split]]].
  - rewrite nth_error_map, Hs in Hw. now injection Hw as <-.
  - destruct (has_Deviation_Ind welllist).
    + rewrite !nth_error_map, Hs in Hd. now injection Hd as <-.
    + rewrite nth_error_map, Hs in Hd. now injection Hd as <-.
  - apply nth_error_seq_from in Hi. lia.
  - erewrite loc_add_nth_error in Hx;
      [|now rewrite length_map|rewrite nth_error_map, Hs; reflexivity].
    apply Some_inj in Hx. rewrite <- Hx.
    destruct (nth i mask false) eqn:E; [|reflexivity].
    rewrite uniform_nth_error by now apply mask_sum_firstn_lt.
    reflexivity.
  - erewrite loc_add_nth_error in Hy;
      [|now rewrite length_map|rewrite nth_error_map, Hs; reflexivity].
    apply Some_inj in Hy. rewrite <- Hy.
    destruct (nth i mask false) eqn:E; [|reflexivity].
    rewrite uniform_nth_error by now apply mask_sum_firstn_lt.
    reflexivity.
Qed.

(** Every returned row is a row of the table before the filter, at the
    position its [Well_ID] names. *)
Lemma prepare_row_position include_unknown r :
  In r (fst (prepare_well_data welllist prod inj include_unknown g)) ->
  exists i, Well_ID r = S i /\
            nth_error (prepared_all welllist prod inj g) i = Some r.
Proof.
  rewrite prepare_filter. intros H.
  assert (Hin : In r (prepared_all welllist prod inj g))
    by (destruct include_unknown; [assumption|now apply filter_In in H]).
  apply In_nth_error in Hin as (i & Hi). exists i. split; [|assumption].
  now apply prepared_all_row in Hi.
Qed.

Lemma prepared_all_nth_error i w :
  nth_error df i = Some w ->
  exists r, nth_error (prepared_all welllist prod inj g) i = Some r /\
            source r = w.
Proof.
  intros Hw.
  destruct (nth_error (prepared_all welllist prod inj g) i) as [r|] eqn:E.
  - exists r. split; [reflexivity|].
    apply prepared_all_row in E as (Hs & _). congruence.
  - apply nth_error_None in E. rewrite prepared_all_length in E.
    assert (i < List.length df) by (apply nth_error_Some; congruence). lia.
Qed.

End Prepared.

(* ------------------------------------------------------------------ *)
(** ** Classification, identifiers and row count *)

(** C1: a well-list row whose UWI is in both the production table's and the
    injection table's UWI column is returned, whatever [include_unknown]
    is, and its [Well_Type] is "Injection": the injection pass is the later
    of the two. *)
Theorem injection_wins welllist prod inj include_unknown g i w :
  nth_error (wells welllist) i = Some w ->
  In (Well.UWI w) (map Prod.UWI prod) ->
  In (Well.UWI w) (map Inj.UWI inj) ->
  let out := fst (prepare_well_data welllist prod inj include_unknown g) in
  (exists r, In r out /\ source r = w /\ Well_ID r = S i /\
             Well_Type r = "Injection") /\
  (forall r, In r out -> Well_ID r = S i ->
             source r = w /\ Well_Type r = "Injection").
Proof.
  intros Hw Hp Hi out.
  assert (Hty : forall r,
             nth_error (prepared_all welllist prod inj g) i = Some r ->
             source r = w /\ Well_Type r = "Injection").
  { intros r Hr. apply prepared_all_row in Hr as (Hs & Ht & _).
    assert (E : source r = w) by congruence. split; [assumption|].
    rewrite Ht, E. unfold well_type_of.
    apply contains_In in Hi. now rewrite Hi. }
  split.
  - destruct (prepared_all_nth_error welllist prod inj g _ Hw) as (r & Hr & Hs).
    exists r. destruct (Hty r Hr) as (_ & Ht).
    pose proof (prepared_all_row _ _ _ _ _ Hr) as (_ & _ & _ & Hid & _).
    repeat split; try assumption.
    unfold out. rewrite prepare_filter.
    apply nth_error_In in Hr.
    destruct include_unknown; [assumption|].
    apply filter_In. split; [assumption|]. now rewrite Ht.
  - intros r Hr Hid.
    apply prepare_row_position in Hr as (i' & Hid' & Hr).
    assert (i' = i) by lia. subst i'. now apply Hty.
Qed.

(** C2: before the filter the [Well_ID] column is 1, 2, ..., N in row order
    (N the number of rows of the well list); the table returned for
    [include_unknown = False] is the one returned for [True] with the
    Unknown rows taken out, so a surviving row keeps the [Well_ID] of its
    position in the well list. *)
Theorem well_id_sequence welllist prod inj g :
  let all := fst (prepare_well_data welllist prod inj true g) in
  let kept := fst (prepare_well_data welllist prod inj false g) in
  map Well_ID all = seq 1 (List.length (wells welllist)) /\
  map source all = wells welllist /\
  kept = filter (fun r => negb (String.eqb (Well_Type r) "Unknown")) all /\
  (forall r, In r kept ->
     nth_error (wells welllist) (Well_ID r - 1) = Some (source r) /\
     nth_error all (Well_ID r - 1) = Some r /\
     1 <= Well_ID r <= List.length (wells welllist)).
Proof.
  intros all kept.
  assert (Hall : all = prepared_all welllist prod inj g) by reflexivity.
  split; [|split; [|split]].
  - rewrite Hall. apply nth_error_ext. intros i.
    rewrite nth_error_map.
    destruct (nth_error (prepared_all welllist prod inj g) i) as [r|] eqn:E.
    + pose proof (prepared_all_row _ _ _ _ _ E) as (Hs & _ & _ & Hid & _).
      assert (Hlt : i < List.length (wells welllist))
        by (apply nth_error_Some; congruence).
      simpl. rewrite Hid.
      rewrite nth_error_nth' with (d := 0) by now rewrite length_seq.
      now rewrite seq_nth.
    + apply nth_error_None in E. rewrite prepared_all_length in E.
      simpl. symmetry. apply nth_error_None. now rewrite length_seq.
  - rewrite Hall. apply prepared_all_source.
  - reflexivity.
  - intros r Hr. apply prepare_row_position in Hr as (i & Hid & Hr).
    pose proof (prepared_all_row _ _ _ _ _ Hr) as (Hs & _).
    assert (Hlt : i < List.length (wells welllist))
      by (apply nth_error_Some; congruence).
    rewrite Hid. replace (S i - 1) with i by lia.
    repeat split; try assumption; lia.
Qed.

Lemma filter_length_map A B (f : A -> B) (q : B -> bool) (l : list A) :
  List.length (filter (fun a => q (f a)) l) = List.length (filter q (map f l)).
Proof.
  induction l as [|a l IH]; simpl; [reflexivity|].
  destruct (q (f a)); simpl; now rewrite IH.
Qed.

(** C4: with [include_unknown = False] the returned table has as many rows
    as the well list has rows whose derived [Well_Type] is not "Unknown",
    which are the rows whose UWI is in the production or in the injection
    table's UWI column. *)
Theorem filtered_row_count welllist prod inj g :
  let kept := fst (prepare_well_data welllist prod inj false g) in
  let all := fst (prepare_well_data welllist prod inj true g) in
  List.length kept =
    List.length (filter (fun r => negb (String.eqb (Well_Type r) "Unknown")) all) /\
  List.length kept =
    List.length
      (filter (fun w => Py.contains (map Prod.UWI prod) (Well.UWI w)
                        || Py.contains (map Inj.UWI inj) (Well.UWI w))
         (wells welllist)).
Proof.
  intros kept all. split; [reflexivity|].
  unfold kept. rewrite prepare_filter.
  rewrite <- (prepared_all_source welllist prod inj g) at 1.
  rewrite <- filter_length_map. f_equal.
  apply filter_ext_in. intros r Hr.
  apply In_nth_error in Hr as (i & Hr).
  apply prepared_all_row in Hr as (_ & Ht & _).
  rewrite Ht. unfold well_type_of.
  destruct (Py.contains (map Inj.UWI inj) (Well.UWI (source r))),
    (Py.contains (map Prod.UWI prod) (Well.UWI (source r))); reflexivity.
Qed.

(* ------------------------------------------------------------------ *)
(** ** Deviation type *)











(** C10: when the column "Deviation Ind" is there, every returned row is
    "Horizontal" or "Vertical" and none is "Unknown"; a row whose value is
    missing is "Vertical". *)
Theorem deviation_known_when_column_present welllist prod inj include_unknown g r :
  has_Deviation_Ind welllist = true ->
  In r (fst (prepare_well_data welllist prod inj include_unknown g)) ->
  (Deviation_Type r = "Horizontal" \/ Deviation_Type r = "Vertical") /\
  Deviation_Type r <> "Unknown" /\
  (Well.Deviation_Ind (source r) = NA -> Deviation_Type r = "Vertical").
Proof.
  intros Hcol Hr.
  apply prepare_row_position in Hr as (i & _ & Hr).
  apply prepared_all_row in Hr as (_ & _ & Hd & _).
  rewrite Hd, Hcol. unfold deviation_of. split; [|split].
  - destruct (Py.startswith _ _); auto.
  - destruct (Py.startswith _ _); discriminate.
  - intros ->. reflexivity.
Qed.

(* ------------------------------------------------------------------ *)
(** ** Display coordinates *)

(** C6: a returned row whose coordinates no other row of the well list
    shares keeps them as its display coordinates. *)
Theorem unique_coordinates_kept welllist prod inj include_unknown g r i :
  In r (fst (prepare_well_data welllist prod inj include_unknown g)) ->
  Well_ID r = S i ->
  (forall j w', j <> i -> nth_error (wells welllist) j = Some w' ->
                same_coords (coords (source r)) (coords w') = false) ->
  plot_lon r = Well.Longitude_NAD_83 (source r) /\
  plot_lat r = Well.Latitude_NAD_83 (source r).
Proof.
  intros Hr Hid Huniq.
  apply prepare_row_position in Hr as (i' & Hid' & Hr).
  assert (i' = i) by lia. subst i'.
  apply prepared_all_row in Hr as (Hs & _ & _ & _ & Hx & Hy).
  destruct (nth i (dup_mask_of (wells welllist)) false) eqn:E.
  - apply (dup_mask_spec _ _ Hs) in E as (j & w' & Hne & Hj & Hsame).
    rewrite (Huniq j w' Hne Hj) in Hsame. discriminate.
  - split; assumption.
Qed.

(** C5, as the code has it: two returned rows that come from different
    rows of the well list with the same coordinates are both moved, each by
    draws of its own.  With [k] the number of rows in duplicate groups, the
    longitudes take two different ones of the first [k] draws and the
    latitudes the two draws [k] places later, so no row is left as an
    anchor.  A draw is added as it comes: when the generator keeps within
    the bounds, so do the four offsets. *)
Theorem duplicates_all_jittered welllist prod inj include_unknown g i j ri rj :
  In ri (fst (prepare_well_data welllist prod inj include_unknown g)) ->
  In rj (fst (prepare_well_data welllist prod inj include_unknown g)) ->
  Well_ID ri = S i -> Well_ID rj = S j -> i <> j ->
  same_coords (coords (source ri)) (coords (source rj)) = true ->
  let k := mask_sum (dup_mask_of (wells welllist)) in
  exists a b,
    a <> b /\ a < k /\ b < k /\
    plot_lon ri = (Well.Longitude_NAD_83 (source ri) + jitter_draw (g a))%float /\
    plot_lat ri = (Well.Latitude_NAD_83 (source ri) + jitter_draw (g (k + a)%nat))%float /\
    plot_lon rj = (Well.Longitude_NAD_83 (source rj) + jitter_draw (g b))%float /\
    plot_lat rj = (Well.Latitude_NAD_83 (source rj) + jitter_draw (g (k + b)%nat))%float /\
    (draws_in_range g ->
       within_jitter (jitter_draw (g a)) = true /\
       within_jitter (jitter_draw (g (k + a))) = true /\
       within_jitter (jitter_draw (g b)) = true /\
       within_jitter (jitter_draw (g (k + b))) = true).
Proof.
  intros Hri Hrj Hidi Hidj Hne Hsame k.
  apply prepare_row_position in Hri as (i' & Hi' & Hri).
  apply prepare_row_position in Hrj as (j' & Hj' & Hrj).
  assert (i' = i) by lia. assert (j' = j) by lia. subst i' j'.
  apply prepared_all_row in Hri as (Hsi & _ & _ & _ & Hxi & Hyi).
  apply prepared_all_row in Hrj as (Hsj & _ & _ & _ & Hxj & Hyj).
  set (mask := dup_mask_of (wells welllist)) in *.
  assert (Ei : nth i mask false = true).
  { apply (dup_mask_spec _ _ Hsi). exists j, (source rj). auto. }
  assert (Ej : nth j mask false = true).
  { apply (dup_mask_spec _ _ Hsj). exists i, (source ri).
    rewrite same_coords_sym. auto. }
  rewrite Ei in Hxi, Hyi. rewrite Ej in Hxj, Hyj.
  exists (mask_sum (firstn i mask)), (mask_sum (firstn j mask)).
  split; [|split; [|split]].
  - destruct (Nat.lt_ge_cases i j) as [Hlt|Hge].
    + pose proof (mask_sum_firstn_mono mask Hlt Ei). lia.
    + assert (Hlt : j < i) by lia.
      pose proof (mask_sum_firstn_mono mask Hlt Ej). lia.
  - now apply mask_sum_firstn_lt.
  - now apply mask_sum_firstn_lt.
  - do 4 (split; [assumption|]).
    intros Hg. repeat split; apply Hg.
Qed.

(* ------------------------------------------------------------------ *)
(** ** [Series.max()] and [max] *)

Lemma max_step_spec acc v :
  let m := max_step acc v in
  (PrimFloat.is_nan m = true ->
     PrimFloat.is_nan acc = true /\ PrimFloat.is_nan v = true) /\
  (PrimFloat.is_nan m = false ->
     (m = acc \/ m = v) /\
     (PrimFloat.is_nan acc = false -> (acc <=? m)%float = true) /\
     (PrimFloat.is_nan v = false -> (v <=? m)%float = true)).
Proof.
  unfold max_step.
  destruct (PrimFloat.is_nan v) eqn:Hv;
    [|destruct (PrimFloat.is_nan acc) eqn:Ha;
      [|destruct (acc <? v)%float eqn:Hlt]];
    (split; [intros Hm; try congruence; auto|]);
    intros Hm; repeat split; auto; intros Hx; try congruence;
    auto using float_leb_refl, float_ltb_leb, float_nltb_leb.
Qed.

Lemma fold_max_spec col acc :
  let m := fold_left max_step col acc in
  (PrimFloat.is_nan m = true ->
     PrimFloat.is_nan acc = true /\
     forall v, In v col -> PrimFloat.is_nan v = true) /\
  (PrimFloat.is_nan m = false ->
     (m = acc \/ In m col) /\
     (PrimFloat.is_nan acc = false -> (acc <=? m)%float = true) /\
     (forall v, In v col -> PrimFloat.is_nan v = false -> (v <=? m)%float = true)).
Proof.
  revert acc; induction col as [|v col IH]; intros acc; simpl.
  - split.
    + intros H. split; [assumption|intros ? []].
    + intros H. split; [now left|].
      split; [intros _; now apply float_leb_refl|intros ? []].
  - destruct (IH (max_step acc v)) as (IHn & IHf).
    destruct (max_step_spec acc v) as (Sn & Sf).
    split.
    + intros Hm. destruct (IHn Hm) as (Hs & Hall).
      destruct (Sn Hs) as (Ha & Hv).
      split; [assumption|]. intros w [<-|Hw]; auto.
    + intros Hm. destruct (IHf Hm) as (Hin & Hacc & Hall).
      destruct (PrimFloat.is_nan (max_step acc v)) eqn:Es.
      * destruct (Sn eq_refl) as (Ha & Hv).
        split; [|split].
        -- destruct Hin as [E|Hin]; [|auto].
           rewrite E in Hm. congruence.
        -- congruence.
        -- intros w [<-|Hw] Hnan; [congruence|auto].
      * destruct (Sf eq_refl) as (Hsel & Hsa & Hsv).
        specialize (Hacc eq_refl).
        split; [|split].
        -- destruct Hin as [E|Hin]; [|auto].
           destruct Hsel as [E'|E']; [left|right; left]; congruence.
        -- intros Ha. eapply float_leb_trans; [apply Hsa, Ha|exact Hacc].
        -- intros w [<-|Hw] Hnan; [|auto].
           eapply float_leb_trans; [apply Hsv, Hnan|exact Hacc].
Qed.

(** [Series.max()] is NaN only when every value is; otherwise it is one of
    the values and no value that is not NaN exceeds it. *)
Lemma series_max_spec col :
  (PrimFloat.is_nan (series_max col) = true ->
     forall v, In v col -> PrimFloat.is_nan v = true) /\
  (PrimFloat.is_nan (series_max col) = false ->
     In (series_max col) col /\
     forall v, In v col -> PrimFloat.is_nan v = false ->
               (v <=? series_max col)%float = true).
Proof.
  unfold series_max. destruct (fold_max_spec col nan) as (Hn & Hf). split.
  - intros H. now apply Hn.
  - intros H. destruct (Hf H) as ([E|Hin] & _ & Hall).
    + rewrite E in H. discriminate.
    + split; assumption.
Qed.

Lemma series_max_some_value col v :
  In v col -> PrimFloat.is_nan v = false ->
  PrimFloat.is_nan (series_max col) = false.
Proof.
  intros Hv Hnan. destruct (PrimFloat.is_nan (series_max col)) eqn:E;
    [|reflexivity].
  destruct (series_max_spec col) as (Hn & _).
  rewrite (Hn E v Hv) in Hnan. discriminate.
Qed.

Lemma py_max_spec a b :
  PrimFloat.is_nan a = false ->
  PrimFloat.is_nan (py_max a b) = false /\
  (a <=? py_max a b)%float = true /\
  (PrimFloat.is_nan b = false -> (b <=? py_max a b)%float = true) /\
  (py_max a b = a \/ py_max a b = b /\ PrimFloat.is_nan b = false).
Proof.
  intros Ha. unfold py_max. destruct (a <? b)%float eqn:Hlt.
  - pose proof (float_ltb_leb Hlt) as Hle.
    destruct (float_leb_not_nan Hle) as (_ & Hb).
    split; [assumption|]. split; [assumption|].
    split; [intros _; now apply float_leb_refl|auto].
  - split; [assumption|]. split; [now apply float_leb_refl|].
    split; [intros Hb; now apply float_nltb_leb|auto].
Qed.

Lemma forallb_false_witness A (f : A -> bool) l :
  forallb f l = false -> exists a, In a l /\ f a = false.
Proof.
  induction l as [|a l IH]; simpl; [discriminate|].
  destruct (f a) eqn:E; simpl.
  - intros H. destruct (IH H) as (b & Hb & Hf). eauto.
  - intros _. eauto.
Qed.

Lemma is_nan_eqb v : PrimFloat.is_nan v = false -> (v =? v)%float = true.
Proof. unfold PrimFloat.is_nan. now destruct (v =? v)%float. Qed.

Lemma py_max_chain_spec pvals ivals :
  let m := py_max (py_max 0 (series_max pvals)) (series_max ivals) in
  PrimFloat.is_nan m = false /\
  (0 <=? m)%float = true /\
  (forall v, In v (pvals ++ ivals) -> PrimFloat.is_nan v = false ->
             (v <=? m)%float = true) /\
  (m = 0%float \/ In m (pvals ++ ivals)).
Proof.
  intros m.
  destruct (py_max_spec 0 (series_max pvals) eq_refl) as (N1 & Z1 & P1 & S1).
  destruct (py_max_spec (py_max 0 (series_max pvals)) (series_max ivals) N1)
    as (N2 & Z2 & P2 & S2).
  fold m in N2, Z2, P2, S2.
  destruct (series_max_spec pvals) as (Pn & Pf).
  destruct (series_max_spec ivals) as (In_ & If).
  split; [assumption|]. split; [eapply float_leb_trans; eassumption|]. split.
  - intros v Hv Hnan. apply in_app_iff in Hv as [Hv|Hv].
    + destruct (PrimFloat.is_nan (series_max pvals)) eqn:E.
      * rewrite (Pn eq_refl v Hv) in Hnan. discriminate.
      * destruct (Pf eq_refl) as (_ & Hall).
        eapply float_leb_trans; [apply Hall; assumption|].
        eapply float_leb_trans; [apply P1; reflexivity|assumption].
    + destruct (PrimFloat.is_nan (series_max ivals)) eqn:E.
      * rewrite (In_ eq_refl v Hv) in Hnan. discriminate.
      * destruct (If eq_refl) as (_ & Hall).
        eapply float_leb_trans; [apply Hall; assumption|].
        now apply P2.
  - destruct S2 as [E2|(E2 & Hi)].
    + destruct S1 as [E1|(E1 & Hp)].
      * left. congruence.
      * right. apply in_app_iff. left.
        destruct (Pf Hp) as (Hin & _). congruence.
    + right. apply in_app_iff. right.
      destruct (If Hi) as (Hin & _). congruence.
Qed.

Lemma of_no_wells_prod prod_df : prod_of_wells prod_df [] = [].
Proof. unfold prod_of_wells. induction prod_df; simpl; auto. Qed.

Lemma of_no_wells_inj inj_df : inj_of_wells inj_df [] = [].
Proof. unfold inj_of_wells. induction inj_df; simpl; auto. Qed.

Lemma py_max_nan a : py_max a nan = a.
Proof.
  unfold py_max. destruct (a <? nan)%float eqn:E; [|reflexivity].
  apply float_ltb_leb, float_leb_not_nan in E as (_ & E). discriminate E.
Qed.

(** The three assignments to [max_val], as one expression. *)
Lemma shared_max_chain prod_col prod_df inj_df prod_wells inj_wells :
  shared_max prod_col prod_df inj_df prod_wells inj_wells =
  py_max (py_max 0 (series_max (map prod_col (prod_of_wells prod_df prod_wells))))
         (series_max (map Inj.Water_Inj_M3 (inj_of_wells inj_df inj_wells))).
Proof.
  unfold shared_max.
  destruct prod_wells as [|p pw], inj_wells as [|q iw]; simpl truthy; cbv iota;
    rewrite ?of_no_wells_prod, ?of_no_wells_inj; simpl map;
    change (series_max []) with nan; now rewrite ?py_max_nan.
Qed.

Lemma shared_max_spec prod_col prod_df inj_df prod_wells inj_wells :
  (forall v, In v (selected_values prod_col prod_df inj_df prod_wells inj_wells) ->
             volume_ok v = true) ->
  is_shared_maximum
    (shared_max prod_col prod_df inj_df prod_wells inj_wells)
    (selected_values prod_col prod_df inj_df prod_wells inj_wells).
Proof.
  intros Hok. rewrite shared_max_chain. unfold selected_values in *.
  set (pvals := map prod_col (prod_of_wells prod_df prod_wells)) in *.
  set (ivals := map Inj.Water_Inj_M3 (inj_of_wells inj_df inj_wells)) in *.
  destruct (py_max_chain_spec pvals ivals) as (Hn & Hz & Hub & Hsel).
  set (m := py_max (py_max 0 (series_max pvals)) (series_max ivals)) in *.
  split; [exact Hub|].
  destruct Hsel as [E|Hin].
  - destruct (forallb PrimFloat.is_nan (pvals ++ ivals)) eqn:Hall.
    + right. split; [|assumption].
      intros v Hv. now apply (proj1 (forallb_forall _ _) Hall).
    + left. apply forallb_false_witness in Hall as (v & Hv & Hnan).
      exists v. split; [assumption|].
      apply float_leb_antisym; [now apply Hub|].
      specialize (Hok v Hv). unfold volume_ok in Hok.
      rewrite Hnan in Hok. simpl in Hok. now rewrite E.
  - left. exists m. split; [assumption|now apply is_nan_eqb].
Qed.

(* ------------------------------------------------------------------ *)
(** ** The chart builders *)

Lemma prod_of_well_absent prod_df well :
  ~ In well (map Prod.UWI prod_df) -> prod_of_well prod_df well = [].
Proof.
  unfold prod_of_well. induction prod_df as [|r prod_df IH]; simpl; intros H.
  - reflexivity.
  - destruct (String.eqb_spec (Prod.UWI r) well) as [E|E].
    + exfalso. apply H. now left.
    + apply IH. intros Hin. apply H. now right.
Qed.

Lemma inj_of_well_absent inj_df well :
  ~ In well (map Inj.UWI inj_df) -> inj_of_well inj_df well = [].
Proof.
  unfold inj_of_well. induction inj_df as [|r inj_df IH]; simpl; intros H.
  - reflexivity.
  - destruct (String.eqb_spec (Inj.UWI r) well) as [E|E].
    + exfalso. apply H. now left.
    + apply IH. intros Hin. apply H. now right.
Qed.

Lemma enumerate_In A (l : list A) a :
  In a l -> exists i, In (i, a) (enumerate l).
Proof.
  unfold enumerate. generalize 0.
  induction l as [|b l IH]; intros n; simpl; [intros []|].
  intros [->|H].
  - exists n. now left.
  - destruct (IH (S n) H) as (i & Hi). exists i. now right.
Qed.

Lemma flat_map_pair_length A B (a b : A -> B) (l : list A) :
  List.length (flat_map (fun w => [a w; b w]) l) = 2 * List.length l.
Proof. induction l as [|w l IH]; simpl; [reflexivity|]. rewrite IH. lia. Qed.

Lemma flat_map_pair_nth_error A B (a b : A -> B) (l : list A) i w :
  nth_error l i = Some w ->
  nth_error (flat_map (fun w => [a w; b w]) l) (2 * i) = Some (a w) /\
  nth_error (flat_map (fun w => [a w; b w]) l) (2 * i + 1) = Some (b w).
Proof.
  revert i; induction l as [|w0 l IH]; intros i H.
  - destruct i; discriminate.
  - destruct i as [|i]; simpl in H.
    + injection H as ->. split; reflexivity.
    + replace (2 * S i) with (S (S (2 * i))) by lia.
      replace (S (S (2 * i)) + 1) with (S (S (2 * i + 1))) by lia.
      simpl flat_map. simpl nth_error. now apply IH.
Qed.

(** The trace is shown to be in the figure by [member]; its fields are then
    read off with the well's rows rewritten to none. *)
Ltac empty_trace Hnone member :=
  unfold has_empty_trace; eexists;
  split;
  [ simpl data; member
  | simpl; unfold water_production_bar, water_injection_line;
    simpl; rewrite ?Hnone; repeat split; reflexivity ].

Section BuilderProofs.

Variable datetime : Type.
Variable parse_datetime : string -> option datetime.

(** C7: a selected well that has no row in the table it is looked up in
    gives, in each of the five builders, a trace of that well with no data
    point; the builders are total, so nothing is raised. *)
Theorem absent_well_empty_trace prod_df inj_df prod_wells inj_wells :
  (forall well, In well prod_wells -> ~ In well (map Prod.UWI prod_df) ->
     has_empty_trace
       (plot_water_inj_prod parse_datetime prod_df inj_df prod_wells inj_wells)
       Bar ("Water Production from well " ++ well) /\
     has_empty_trace
       (plot_oil_inj_prod parse_datetime prod_df inj_df prod_wells inj_wells)
       Scatter ("Oil Production from well " ++ well) /\
     has_empty_trace
       (plot_gas_inj_prod parse_datetime prod_df inj_df prod_wells inj_wells)
       Bar ("Gas Production from well " ++ well) /\
     has_empty_trace (plot_oil_water_prod parse_datetime prod_df prod_wells)
       Scatter ("Oil Production " ++ well) /\
     has_empty_trace (plot_oil_water_prod parse_datetime prod_df prod_wells)
       Bar ("Water Production " ++ well) /\
     has_empty_trace (plot_gas_water_prod parse_datetime prod_df prod_wells)
       Scatter ("Gas Production " ++ well) /\
     has_empty_trace (plot_gas_water_prod parse_datetime prod_df prod_wells)
       Bar ("Water Production " ++ well)) /\
  (forall well, In well inj_wells -> ~ In well (map Inj.UWI inj_df) ->
     has_empty_trace
       (plot_water_inj_prod parse_datetime prod_df inj_df prod_wells inj_wells)
       Scatter ("Water Injection into Well " ++ well) /\
     has_empty_trace
       (plot_oil_inj_prod parse_datetime prod_df inj_df prod_wells inj_wells)
       Scatter ("Water Injection into Well " ++ well) /\
     has_empty_trace
       (plot_gas_inj_prod parse_datetime prod_df inj_df prod_wells inj_wells)
       Scatter ("Water Injection into Well " ++ well)).
Proof.
  split.
  - intros well Hsel Habs.
    pose proof (prod_of_well_absent prod_df well Habs) as Hnone.
    destruct (enumerate_In prod_wells well Hsel) as (i & Hi).
    split; [|split; [|split; [|split; [|split; [|split]]]]].
    + empty_trace Hnone
        ltac:(apply in_or_app; left;
              apply (in_map (fun w => _) prod_wells well Hsel)).
    + empty_trace Hnone
        ltac:(apply in_or_app; left;
              apply (in_map (fun iw : nat * string => let (_, w) := iw in _)
                       _ _ Hi)).
    + empty_trace Hnone
        ltac:(apply in_or_app; left;
              apply (in_map (fun iw : nat * string => let (_, w) := iw in _)
                       _ _ Hi)).
    + empty_trace Hnone
        ltac:(apply in_flat_map; exists well;
              split; [assumption|]; left; reflexivity).
    + empty_trace Hnone
        ltac:(apply in_flat_map; exists well;
              split; [assumption|]; right; left; reflexivity).
    + empty_trace Hnone
        ltac:(apply in_flat_map; exists (i, well);
              split; [assumption|]; left; reflexivity).
    + empty_trace Hnone
        ltac:(apply in_flat_map; exists (i, well);
              split; [assumption|]; right; left; reflexivity).
  - intros well Hsel Habs.
    pose proof (inj_of_well_absent inj_df well Habs) as Hnone.
    destruct (enumerate_In inj_wells well Hsel) as (j & Hj).
    split; [|split].
    + empty_trace Hnone
        ltac:(apply in_or_app; right;
              apply (in_map (water_injection_line parse_datetime inj_df None)
                       _ _ Hsel)).
    + empty_trace Hnone
        ltac:(apply in_or_app; right;
              apply (in_map (fun jw : nat * string => let (_, w) := jw in _)
                       _ _ Hj)).
    + empty_trace Hnone
        ltac:(apply in_or_app; right;
              apply (in_map (water_injection_line parse_datetime inj_df None)
                       _ _ Hsel)).
Qed.

(** C9: [plot_oil_water_prod] adds, for each selected well in selection
    order, one oil line and then one water bar; the oil line is brown
    exactly when one well is selected, and has no colour of its own
    otherwise. *)
Theorem oil_water_traces prod_df prod_wells i well :
  nth_error prod_wells i = Some well ->
  let fig := plot_oil_water_prod parse_datetime prod_df prod_wells in
  List.length (data fig) = 2 * List.length prod_wells /\
  exists oil bar,
    nth_error (data fig) (2 * i) = Some oil /\
    nth_error (data fig) (2 * i + 1) = Some bar /\
    kind oil = Scatter /\
    name oil = ("Oil Production " ++ well)%string /\
    y oil = map Prod.Oil_M3 (prod_of_well prod_df well) /\
    x oil = to_datetime parse_datetime (map Prod.Date (prod_of_well prod_df well)) /\
    kind bar = Bar /\
    name bar = ("Water Production " ++ well)%string /\
    y bar = map Prod.Water_M3 (prod_of_well prod_df well) /\
    x bar = to_datetime parse_datetime (map Prod.Date (prod_of_well prod_df well)) /\
    (line_color oil = Some "brown" <-> List.length prod_wells = 1) /\
    (List.length prod_wells <> 1 -> line_color oil = None) /\
    line_color bar = None /\ marker_color bar = None.
Proof.
  intros Hw fig. unfold fig, plot_oil_water_prod. simpl data.
  split; [apply flat_map_pair_length|].
  match goal with
  | |- context [flat_map (fun w => [@?a w; @?b w]) prod_wells] =>
      destruct (flat_map_pair_nth_error a b prod_wells i Hw) as (Ho & Hb)
  end.
  eexists. eexists.
  split; [exact Ho|]. split; [exact Hb|].
  simpl. unfold color_if.
  destruct (Nat.eqb_spec (List.length prod_wells) 1) as [E|E];
    repeat split; try reflexivity; try assumption; try discriminate;
    try congruence.
Qed.

(** The scale of the two production-only charts: when some selected row has
    a value in the chart's first column, it is the maximum over that column
    and "Water M3". *)
Lemma prod_max_spec prod_col prod_df prod_wells :
  let first := map prod_col (prod_of_wells prod_df prod_wells) in
  let water := map Prod.Water_M3 (prod_of_wells prod_df prod_wells) in
  PrimFloat.is_nan (series_max first) = false ->
  let m := prod_max prod_col prod_df prod_wells in
  In m (first ++ water) /\
  forall v, In v (first ++ water) -> PrimFloat.is_nan v = false ->
            (v <=? m)%float = true.
Proof.
  intros first water Hfirst m.
  assert (Hsel : truthy prod_wells = true).
  { destruct prod_wells; [|reflexivity].
    unfold first in Hfirst. rewrite of_no_wells_prod in Hfirst.
    discriminate Hfirst. }
  unfold m, prod_max. rewrite Hsel. fold first water.
  destruct (py_max_spec (series_max first) (series_max water) Hfirst)
    as (Hn & Hle & Hw & Hsel').
  destruct (series_max_spec first) as (_ & Ff).
  destruct (series_max_spec water) as (Wn & Wf).
  destruct (Ff Hfirst) as (Fin & Fall).
  split.
  - apply in_app_iff. destruct Hsel' as [->|(-> & Hwn)]; [now left|].
    right. now apply Wf.
  - intros v Hv Hnan. apply in_app_iff in Hv as [Hv|Hv].
    + eapply float_leb_trans; [now apply Fall|assumption].
    + destruct (PrimFloat.is_nan (series_max water)) eqn:E.
      * rewrite (Wn eq_refl v Hv) in Hnan. discriminate.
      * destruct (Wf eq_refl) as (_ & Wall).
        eapply float_leb_trans; [now apply Wall|now apply Hw].
Qed.

Lemma shared_max_floor prod_col prod_df inj_df prod_wells inj_wells :
  is_maximum_of
    (shared_max prod_col prod_df inj_df prod_wells inj_wells)
    (0%float :: selected_values prod_col prod_df inj_df prod_wells inj_wells).
Proof.
  rewrite shared_max_chain. unfold selected_values.
  destruct (py_max_chain_spec
              (map prod_col (prod_of_wells prod_df prod_wells))
              (map Inj.Water_Inj_M3 (inj_of_wells inj_df inj_wells)))
    as (Hn & Hz & Hub & Hsel).
  split; [|split].
  - destruct Hsel as [E|Hin]; [left; now rewrite E|right; exact Hin].
  - exact Hn.
  - intros v [<-|Hv] Hnan; [exact Hz|now apply Hub].
Qed.

Lemma prod_max_no_wells prod_col prod_df :
  prod_max prod_col prod_df [] = 0%float.
Proof. reflexivity. Qed.

Lemma prod_max_maximum prod_col prod_df prod_wells :
  (exists r, In r (prod_of_wells prod_df prod_wells) /\
             PrimFloat.is_nan (prod_col r) = false) ->
  is_maximum_of
    (prod_max prod_col prod_df prod_wells)
    (map prod_col (prod_of_wells prod_df prod_wells)
     ++ map Prod.Water_M3 (prod_of_wells prod_df prod_wells)).
Proof.
  intros (r & Hr & Hnan).
  assert (Hfirst : PrimFloat.is_nan
            (series_max (map prod_col (prod_of_wells prod_df prod_wells))) = false)
    by (apply (series_max_some_value _ (prod_col r));
        [now apply in_map|assumption]).
  destruct (prod_max_spec prod_col prod_df prod_wells Hfirst) as (Hin & Hub).
  split; [exact Hin|]. split; [|exact Hub].
  pose proof (Hub (prod_col r)
                (in_or_app _ _ _ (or_introl (in_map prod_col _ _ Hr))) Hnan) as Hle.
  now apply float_leb_not_nan in Hle.
Qed.

(** C8, as the code has it: in the three charts of production against
    injection both y-axes have the range [[0, m]], where [m] is the maximum
    of 0 and the values, missing ones left out, of the selected production
    wells in the chart's production column and of the selected injection
    wells in "Water Inj M3", whatever the tables hold; when no selected
    value is negative, [m] is the maximum of the selected values themselves
    (0 when there is none).  The two production-only charts give both axes
    the range [[0, 0]] when no well is selected, and the range [[0, m]] with
    [m] the maximum over the selected wells' values of the chart's first
    column and of "Water M3" when some selected row has a value in the
    first column. *)
Theorem shared_axis_scale prod_df inj_df prod_wells inj_wells :
  let water := plot_water_inj_prod parse_datetime prod_df inj_df prod_wells inj_wells in
  let oil := plot_oil_inj_prod parse_datetime prod_df inj_df prod_wells inj_wells in
  let gas := plot_gas_inj_prod parse_datetime prod_df inj_df prod_wells inj_wells in
  let oil_water := plot_oil_water_prod parse_datetime prod_df prod_wells in
  let gas_water := plot_gas_water_prod parse_datetime prod_df prod_wells in
  let selected col := selected_values col prod_df inj_df prod_wells inj_wells in
  let rows := prod_of_wells prod_df prod_wells in
  (exists m,
     both_axes_range water m /\
     is_maximum_of m (0%float :: selected Prod.Water_M3) /\
     ((forall v, In v (selected Prod.Water_M3) -> volume_ok v = true) ->
      is_shared_maximum m (selected Prod.Water_M3))) /\
  (exists m,
     both_axes_range oil m /\
     is_maximum_of m (0%float :: selected Prod.Oil_M3) /\
     ((forall v, In v (selected Prod.Oil_M3) -> volume_ok v = true) ->
      is_shared_maximum m (selected Prod.Oil_M3))) /\
  (exists m,
     both_axes_range gas m /\
     is_maximum_of m (0%float :: selected Prod.Gas_E3M3) /\
     ((forall v, In v (selected Prod.Gas_E3M3) -> volume_ok v = true) ->
      is_shared_maximum m (selected Prod.Gas_E3M3))) /\
  (prod_wells = [] ->
   both_axes_range oil_water 0%float /\ both_axes_range gas_water 0%float) /\
  ((exists r, In r rows /\ PrimFloat.is_nan (Prod.Oil_M3 r) = false) ->
   exists m,
     both_axes_range oil_water m /\
     is_maximum_of m (map Prod.Oil_M3 rows ++ map Prod.Water_M3 rows)) /\
  ((exists r, In r rows /\ PrimFloat.is_nan (Prod.Gas_E3M3 r) = false) ->
   exists m,
     both_axes_range gas_water m /\
     is_maximum_of m (map Prod.Gas_E3M3 rows ++ map Prod.Water_M3 rows)).
Proof.
  intros water oil gas oil_water gas_water selected rows.
  split; [|split; [|split; [|split; [|split]]]].
  - eexists. split; [split; reflexivity|].
    split; [apply shared_max_floor|apply shared_max_spec].
  - eexists. split; [split; reflexivity|].
    split; [apply shared_max_floor|apply shared_max_spec].
  - eexists. split; [split; reflexivity|].
    split; [apply shared_max_floor|apply shared_max_spec].
  - intros ->. repeat split.
  - intros Hrow. eexists. split; [split; reflexivity|].
    now apply prod_max_maximum.
  - intros Hrow. eexists. split; [split; reflexivity|].
    now apply prod_max_maximum.
Qed.

End BuilderProofs.

(* ------------------------------------------------------------------ *)
(** ** The theorems on sample tables *)

Example sample_kept_ids : map Well_ID sample_kept = [1; 3].
Proof. reflexivity. Qed.

Example sample_types :
  map Well_Type sample_all = ["Injection"; "Unknown"; "Production"].
Proof. reflexivity. Qed.

Example sample_deviations :
  map Deviation_Type sample_all = ["Horizontal"; "Vertical"; "Vertical"].
Proof. reflexivity. Qed.

Example sample_mask : dup_mask_of (wells sample_wells) = [true; true; false].
Proof. reflexivity. Qed.

Lemma injection_wins_sample :
  (exists r, In r sample_kept /\ source r = well_a /\ Well_ID r = 1 /\
             Well_Type r = "Injection") /\
  (forall r, In r sample_kept -> Well_ID r = 1 ->
             source r = well_a /\ Well_Type r = "Injection").
Proof.
  apply (injection_wins sample_wells sample_prod sample_inj false sample_rng
           0 (w := well_a)).
  - reflexivity.
  - simpl. auto.
  - simpl. auto.
Defined.


Lemma deviation_known_sample :
  (Deviation_Type sample_second = "Horizontal" \/
   Deviation_Type sample_second = "Vertical") /\
  Deviation_Type sample_second <> "Unknown" /\
  (Well.Deviation_Ind (source sample_second) = NA ->
   Deviation_Type sample_second = "Vertical").
Proof.
  apply (deviation_known_when_column_present sample_wells sample_prod
           sample_inj true sample_rng).
  - reflexivity.
  - right. left. reflexivity.
Defined.

Lemma unique_coordinates_sample :
  plot_lon sample_third = Well.Longitude_NAD_83 well_c /\
  plot_lat sample_third = Well.Latitude_NAD_83 well_c.
Proof.
  apply (unique_coordinates_kept sample_wells sample_prod sample_inj true
           sample_rng sample_third (i := 2)).
  - right. right. left. reflexivity.
  - reflexivity.
  - intros [|[|[|j]]] w' Hne Hj; simpl in Hj; try discriminate Hj.
    + injection Hj as <-. reflexivity.
    + injection Hj as <-. reflexivity.
    + congruence.
    + destruct j; discriminate Hj.
Defined.

Lemma duplicates_jittered_sample :
  exists a b,
    a <> b /\ a < 2 /\ b < 2 /\
    plot_lon sample_first = (-80 + jitter_draw (sample_rng a))%float /\
    plot_lat sample_first = (53 + jitter_draw (sample_rng (2 + a)%nat))%float /\
    plot_lon sample_second = (-80 + jitter_draw (sample_rng b))%float /\
    plot_lat sample_second = (53 + jitter_draw (sample_rng (2 + b)%nat))%float /\
    (draws_in_range sample_rng ->
       within_jitter (jitter_draw (sample_rng a)) = true /\
       within_jitter (jitter_draw (sample_rng (2 + a))) = true /\
       within_jitter (jitter_draw (sample_rng b)) = true /\
       within_jitter (jitter_draw (sample_rng (2 + b))) = true).
Proof.
  apply (duplicates_all_jittered sample_wells sample_prod sample_inj true
           sample_rng (i := 0) (j := 1) sample_first sample_second).
  - left. reflexivity.
  - right. left. reflexivity.
  - reflexivity.
  - reflexivity.
  - discriminate.
  - reflexivity.
Defined.

(** The sample generator keeps within the bounds. *)
Lemma sample_rng_in_range : draws_in_range sample_rng.
Proof. intros [|[|[|[|n]]]]; reflexivity. Qed.

(** C5, the reading that fails: with [random_sample()] returning 0.5 the
    draw is [-0.0003 + 0.0006 * 0.5 = 0.0], and the two wells at
    (-80.0, 53.0) stay where they were, on top of each other. *)
Lemma jitter_leaves_twins_in_place :
  exists ri rj,
    nth_error (fst (prepare_well_data twin_wells [] [] true half_samples)) 0
      = Some ri /\
    nth_error (fst (prepare_well_data twin_wells [] [] true half_samples)) 1
      = Some rj /\
    same_coords (coords (source ri)) (coords (source rj)) = true /\
    jitter_draw (half_samples 0) = 0%float /\
    (plot_lon ri, plot_lat ri) = coords (source ri) /\
    (plot_lon rj, plot_lat rj) = coords (source rj) /\
    (plot_lon ri, plot_lat ri) = (plot_lon rj, plot_lat rj).
Proof.
  eexists. eexists.
  split; [reflexivity|]. split; [reflexivity|].
  repeat split; reflexivity.
Qed.

Lemma jitter_does_not_always_separate : ~ jitter_separates_duplicates.
Proof.
  intros H.
  destruct (H twin_wells [] [] half_samples 0 1 _ _
              ltac:(discriminate) eq_refl eq_refl eq_refl) as (Hmoved & _).
  apply Hmoved. reflexivity.
Qed.

Example sample_scale :
  range (layout_yaxis2 (fig_layout
    (plot_water_inj_prod sample_parse sample_prod sample_inj
       ["100/01-01"; "100/03-03"] ["100/01-01"]))) = (0%float, 30%float) /\
  range (layout_yaxis (fig_layout
    (plot_water_inj_prod sample_parse sample_prod sample_inj
       ["100/01-01"; "100/03-03"] []))) = (0%float, 6%float).
Proof. split; reflexivity. Qed.

Lemma absent_well_sample :
  has_empty_trace
    (plot_water_inj_prod sample_parse sample_prod sample_inj
       ["100/01-01"; "100/05-05"] ["100/07-07"])
    Bar "Water Production from well 100/05-05" /\
  has_empty_trace
    (plot_oil_water_prod sample_parse sample_prod ["100/01-01"; "100/05-05"])
    Scatter "Oil Production 100/05-05" /\
  has_empty_trace
    (plot_water_inj_prod sample_parse sample_prod sample_inj
       ["100/01-01"; "100/05-05"] ["100/07-07"])
    Scatter "Water Injection into Well 100/07-07".
Proof.
  destruct (absent_well_empty_trace sample_parse sample_prod sample_inj
              ["100/01-01"; "100/05-05"] ["100/07-07"]) as (Hprod & Hinj).
  assert (Hsel : In "100/05-05" ["100/01-01"; "100/05-05"])
    by (right; left; reflexivity).
  assert (Habs : ~ In "100/05-05" (map Prod.UWI sample_prod))
    by (intros [H|[H|[H|[]]]]; discriminate H).
  assert (Hsel' : In "100/07-07" ["100/07-07"]) by (left; reflexivity).
  assert (Habs' : ~ In "100/07-07" (map Inj.UWI sample_inj))
    by (intros [H|[H|[]]]; discriminate H).
  destruct (Hprod _ Hsel Habs) as (Hw & _ & _ & Ho & _).
  destruct (Hinj _ Hsel' Habs') as (Hi & _).
  split; [exact Hw|]. split; [exact Ho|exact Hi].
Defined.

Lemma shared_axis_scale_sample :
  (exists m,
     both_axes_range
       (plot_water_inj_prod sample_parse sample_prod sample_inj
          ["100/01-01"; "100/03-03"] ["100/01-01"]) m /\
     is_maximum_of m
       (0%float :: selected_values Prod.Water_M3 sample_prod sample_inj
                     ["100/01-01"; "100/03-03"] ["100/01-01"]) /\
     is_shared_maximum m
       (selected_values Prod.Water_M3 sample_prod sample_inj
          ["100/01-01"; "100/03-03"] ["100/01-01"])) /\
  (exists m,
     both_axes_range
       (plot_oil_water_prod sample_parse sample_prod
          ["100/01-01"; "100/03-03"]) m /\
     is_maximum_of m
       (map Prod.Oil_M3
          (prod_of_wells sample_prod ["100/01-01"; "100/03-03"])
        ++ map Prod.Water_M3
             (prod_of_wells sample_prod ["100/01-01"; "100/03-03"]))).
Proof.
  destruct (shared_axis_scale sample_parse sample_prod sample_inj
              ["100/01-01"; "100/03-03"] ["100/01-01"])
    as ((m & Hrange & Hmax & Hshared) & _ & _ & _ & Hoil & _).
  split.
  - exists m. split; [exact Hrange|]. split; [exact Hmax|].
    apply Hshared. intros v Hv. cbv in Hv.
    repeat (destruct Hv as [<-|Hv]; [reflexivity|]). destruct Hv.
  - apply Hoil.
    exists (Prod.mk "100/01-01" (Str "2020-01-01") 10%float 4%float 1%float).
    split; [left; reflexivity|reflexivity].
Defined.

(** With negative water volumes only, the axes of [plot_water_inj_prod] end
    at 0 while the largest selected value is -2; with a well that reports
    no oil, the axes of [plot_oil_water_prod] end at NaN while the largest
    selected value is 8. *)
Lemma scale_is_not_always_the_maximum :
  both_axes_range
    (plot_water_inj_prod sample_parse adjusted_prod [] ["100/09-09"] [])
    0%float /\
  is_maximum_of (-2)%float
    (selected_values Prod.Water_M3 adjusted_prod [] ["100/09-09"] []) /\
  ((-2) <? 0)%float = true /\
  PrimFloat.is_nan
    (snd (range (layout_yaxis (fig_layout
       (plot_oil_water_prod sample_parse water_only_prod ["100/07-07"])))))
    = true /\
  PrimFloat.is_nan
    (snd (range (layout_yaxis2 (fig_layout
       (plot_oil_water_prod sample_parse water_only_prod ["100/07-07"])))))
    = true /\
  is_maximum_of 8%float
    (map Prod.Oil_M3 (prod_of_wells water_only_prod ["100/07-07"])
     ++ map Prod.Water_M3 (prod_of_wells water_only_prod ["100/07-07"])).
Proof.
  split; [split; reflexivity|].
  split.
  { split; [right; left; reflexivity|]. split; [reflexivity|].
    intros v Hv _. cbv in Hv.
    repeat (destruct Hv as [<-|Hv]; [reflexivity|]). destruct Hv. }
  split; [reflexivity|]. split; [reflexivity|]. split; [reflexivity|].
  split; [do 3 right; left; reflexivity|]. split; [reflexivity|].
  intros v Hv Hnan. cbv in Hv.
  repeat (destruct Hv as [<-|Hv];
          [first [reflexivity|discriminate Hnan]|]).
  destruct Hv.
Qed.

Lemma oil_water_traces_sample :
  List.length
    (data (plot_oil_water_prod sample_parse sample_prod ["100/01-01"])) = 2 /\
  exists oil bar,
    nth_error
      (data (plot_oil_water_prod sample_parse sample_prod ["100/01-01"])) 0
      = Some oil /\
    nth_error
      (data (plot_oil_water_prod sample_parse sample_prod ["100/01-01"])) 1
      = Some bar /\
    kind oil = Scatter /\
    name oil = "Oil Production 100/01-01" /\
    y oil = [10%float; 20%float] /\
    x oil = [Some "2020-01-01"; Some "2020-02-01"] /\
    kind bar = Bar /\
    name bar = "Water Production 100/01-01" /\
    y bar = [4%float; 6%float] /\
    x bar = [Some "2020-01-01"; Some "2020-02-01"] /\
    (line_color oil = Some "brown" <-> 1 = 1) /\
    (1 <> 1 -> line_color oil = None) /\
    line_color bar = None /\ marker_color bar = None.
Proof.
  exact (oil_water_traces sample_parse sample_prod ["100/01-01"] 0 eq_refl).
Defined.

(* ------------------------------------------------------------------ *)
(** ** More on [prepare_well_data] *)

Lemma prepared_all_ids welllist prod inj g :
  map Well_ID (prepared_all welllist prod inj g)
  = seq 1 (List.length (wells welllist)).
Proof.
  apply nth_error_ext. intros i. rewrite nth_error_map.
  destruct (nth_error (prepared_all welllist prod inj g) i) as [r|] eqn:E.
  - pose proof (prepared_all_row _ _ _ _ _ E) as (Hs & _ & _ & Hid & _).
    assert (Hlt : i < List.length (wells welllist))
      by (apply nth_error_Some; congruence).
    simpl. rewrite Hid.
    rewrite nth_error_nth' with (d := 0) by now rewrite length_seq.
    now rewrite seq_nth.
  - apply nth_error_None in E. rewrite prepared_all_length in E.
    simpl. symmetry. apply nth_error_None. now rewrite length_seq.
Qed.

Lemma seq_strongly_sorted start len : StronglySorted lt (seq start len).
Proof.
  revert start; induction len as [|len IH]; intros start; simpl;
    constructor; [apply IH|].
  apply Forall_forall. intros n Hn. apply in_seq in Hn. lia.
Qed.

Lemma filter_keeps_order A (f : A -> nat) (p : A -> bool) (l : list A) :
  StronglySorted lt (map f l) -> StronglySorted lt (map f (filter p l)).
Proof.
  induction l as [|a l IH]; simpl; intros H; [constructor|].
  inversion H as [|? ? Hs Hall]; subst.
  destruct (p a); simpl; [|now apply IH].
  constructor; [now apply IH|].
  rewrite Forall_forall in *. intros n Hn.
  apply in_map_iff in Hn as (b & <- & Hb). apply filter_In in Hb as (Hb & _).
  apply Hall. now apply in_map.
Qed.

Lemma mask_sum_two mask i j :
  i <> j -> nth i mask false = true -> nth j mask false = true ->
  2 <= mask_sum mask.
Proof.
  intros Hne Hi Hj.
  destruct (Nat.lt_ge_cases i j) as [Hlt|Hge].
  - pose proof (mask_sum_firstn_mono mask Hlt Hi).
    pose proof (mask_sum_firstn_lt mask j Hj). lia.
  - assert (Hlt : j < i) by lia.
    pose proof (mask_sum_firstn_mono mask Hlt Hj).
    pose proof (mask_sum_firstn_lt mask i Hi). lia.
Qed.

Lemma mask_sum_zero mask :
  mask_sum mask = 0 <-> forall i, nth i mask false = false.
Proof.
  induction mask as [|b mask IH]; simpl.
  - split; [intros _ [|i]; reflexivity|reflexivity].
  - split.
    + intros H. destruct b; [discriminate|].
      intros [|i]; [reflexivity|]. apply IH. exact H.
    + intros H. pose proof (H 0) as H0. simpl in H0. subst b.
      apply IH. intros i. exact (H (S i)).
Qed.

(** Some marked row has each rank below the number of marked rows. *)
Lemma rank_reached mask a :
  a < mask_sum mask ->
  exists i, i < List.length mask /\ nth i mask false = true /\
            mask_sum (firstn i mask) = a.
Proof.
  revert a; induction mask as [|b mask IH]; intros a Ha; simpl in Ha; [lia|].
  destruct b.
  - destruct a as [|a].
    + exists 0. simpl. repeat split. lia.
    + destruct (IH a) as (i & Hi & Hm & Hr); [lia|].
      exists (S i). simpl. repeat split; [lia|assumption|now rewrite Hr].
  - destruct (IH a) as (i & Hi & Hm & Hr); [exact Ha|].
    exists (S i). simpl. repeat split; [lia|assumption|assumption].
Qed.

(** A row is in a duplicate group only together with another row. *)
Lemma dup_mask_partner df i :
  nth i (dup_mask_of df) false = true ->
  exists j, j <> i /\ nth j (dup_mask_of df) false = true.
Proof.
  intros Hi.
  destruct (nth_error df i) as [w|] eqn:Hw.
  - destruct (proj1 (dup_mask_spec df i Hw) Hi) as (j & w' & Hne & Hj & Hs).
    exists j. split; [assumption|].
    apply (dup_mask_spec df j Hj). exists i, w. repeat split; auto.
    now rewrite same_coords_sym.
  - apply nth_error_None in Hw. rewrite <- dup_mask_length in Hw.
    rewrite nth_overflow in Hi by assumption. discriminate.
Qed.

(** X1: the [Well_Type] of a returned row is "Injection" exactly when its
    UWI is in the injection table, "Production" exactly when it is in the
    production table and not in the injection table, "Unknown" exactly
    when it is in neither; with [include_unknown = False] no returned row
    is "Unknown". *)
Theorem well_type_cases welllist prod inj include_unknown g r :
  In r (fst (prepare_well_data welllist prod inj include_unknown g)) ->
  let u := Well.UWI (source r) in
  (Well_Type r = "Injection" <-> In u (map Inj.UWI inj)) /\
  (Well_Type r = "Production" <->
     In u (map Prod.UWI prod) /\ ~ In u (map Inj.UWI inj)) /\
  (Well_Type r = "Unknown" <->
     ~ In u (map Prod.UWI prod) /\ ~ In u (map Inj.UWI inj)) /\
  (include_unknown = false -> Well_Type r <> "Unknown").
Proof.
  intros Hr u.
  assert (Hkept : include_unknown = false -> Well_Type r <> "Unknown").
  { intros ->. rewrite prepare_filter in Hr.
    apply filter_In in Hr as (_ & Hne).
    intros E. rewrite E in Hne. discriminate. }
  apply prepare_row_position in Hr as (i & _ & Hr).
  apply prepared_all_row in Hr as (_ & Ht & _).
  fold u in Ht.
  split; [|split; [|split; [|exact Hkept]]];
    rewrite Ht; unfold well_type_of; rewrite <- !contains_In;
    destruct (Py.contains (map Inj.UWI inj) u),
      (Py.contains (map Prod.UWI prod) u);
    intuition (try discriminate; try congruence).
Qed.

(** X2: the returned rows are in the order of the well list: their
    [Well_ID]s increase strictly, with or without the filter, so no two
    returned rows have the same [Well_ID]. *)
Theorem kept_rows_in_order welllist prod inj include_unknown g :
  StronglySorted lt
    (map Well_ID (fst (prepare_well_data welllist prod inj include_unknown g))) /\
  NoDup (map Well_ID (fst (prepare_well_data welllist prod inj include_unknown g))).
Proof.
  assert (Hs : StronglySorted lt
            (map Well_ID
               (fst (prepare_well_data welllist prod inj include_unknown g)))).
  { rewrite prepare_filter. destruct include_unknown.
    - rewrite prepared_all_ids. apply seq_strongly_sorted.
    - apply filter_keeps_order. rewrite prepared_all_ids.
      apply seq_strongly_sorted. }
  split; [exact Hs|].
  induction Hs as [|n l Hs IH Hall]; constructor; [|exact IH].
  intros Hin. rewrite Forall_forall in Hall. specialize (Hall n Hin). lia.
Qed.

(** No row is marked exactly when no two rows share their coordinates. *)
Lemma mask_sum_zero_iff_distinct (df : list Well.t) :
  mask_sum (dup_mask_of df) = 0 <->
  forall i j w w', i <> j -> nth_error df i = Some w ->
                   nth_error df j = Some w' ->
                   same_coords (coords w) (coords w') = false.
Proof.
  rewrite mask_sum_zero. split.
  - intros Hnone i j w w' Hne Hw Hw'.
    destruct (same_coords (coords w) (coords w')) eqn:E; [|reflexivity].
    assert (Hi : nth i (dup_mask_of df) false = true)
      by (apply (dup_mask_spec _ _ Hw); exists j, w'; auto).
    rewrite Hnone in Hi. discriminate.
  - intros Huniq i.
    destruct (nth i (dup_mask_of df) false) eqn:E; [|reflexivity].
    destruct (nth_error df i) as [w|] eqn:Hw.
    + destruct (proj1 (dup_mask_spec df i Hw) E) as (j & w' & Hne & Hj & Hs).
      rewrite (Huniq i j w w') in Hs by auto. discriminate.
    + apply nth_error_None in Hw. rewrite <- dup_mask_length in Hw.
      rewrite nth_overflow in E by assumption. discriminate.
Qed.

(** X3: the number of rows that are jittered is never 1, and it is 0
    exactly when no two rows of the well list have the same coordinates. *)
Theorem jittered_rows_count (df : list Well.t) :
  mask_sum (dup_mask_of df) <> 1 /\
  (mask_sum (dup_mask_of df) = 0 <->
   forall i j w w', i <> j -> nth_error df i = Some w ->
                    nth_error df j = Some w' ->
                    same_coords (coords w) (coords w') = false).
Proof.
  split; [|apply mask_sum_zero_iff_distinct].
  intros H1.
  destruct (@rank_reached (dup_mask_of df) 0) as (i & _ & Hi & _); [lia|].
  destruct (dup_mask_partner df i Hi) as (j & Hne & Hj).
  pose proof (mask_sum_two (dup_mask_of df) (not_eq_sym Hne) Hi Hj). lia.
Qed.

(** X4: when no two rows of the well list have the same coordinates,
    [np.random] is not drawn from: the table returned is the same for
    every generator, the generator is left as it was, and every returned
    row has its source coordinates as display coordinates. *)
Theorem distinct_coordinates_no_draws welllist prod inj include_unknown g g' :
  (forall i j w w', i <> j -> nth_error (wells welllist) i = Some w ->
                    nth_error (wells welllist) j = Some w' ->
                    same_coords (coords w) (coords w') = false) ->
  fst (prepare_well_data welllist prod inj include_unknown g)
  = fst (prepare_well_data welllist prod inj include_unknown g') /\
  (forall n, snd (prepare_well_data welllist prod inj include_unknown g) n = g n) /\
  (forall r, In r (fst (prepare_well_data welllist prod inj include_unknown g)) ->
             plot_lon r = Well.Longitude_NAD_83 (source r) /\
             plot_lat r = Well.Latitude_NAD_83 (source r)).
Proof.
  intros Huniq.
  pose proof (proj2 (mask_sum_zero_iff_distinct (wells welllist)) Huniq) as Hk.
  split; [|split].
  - rewrite !prepare_filter.
    assert (E : prepared_all welllist prod inj g = prepared_all welllist prod inj g').
    { pose proof (prepared_all_columns welllist prod inj g) as H1.
      pose proof (prepared_all_columns welllist prod inj g') as H2.
      cbv zeta in H1, H2. rewrite H1, H2, Hk. reflexivity. }
    now rewrite E.
  - intros n. rewrite prepare_consumes_draws. cbv zeta beta.
    rewrite Hk. reflexivity.
  - intros r Hr. apply prepare_row_position in Hr as (i & _ & Hr).
    apply prepared_all_row in Hr as (_ & _ & _ & _ & Hx & Hy).
    pose proof (proj1 (mask_sum_zero (dup_mask_of (wells welllist))) Hk i) as Hm.
    rewrite Hm in Hx, Hy. split; assumption.
Qed.

(** X5: duplicates are looked for in the whole well list, before the
    filter: a returned row that has the coordinates of any other row of the
    well list, returned or dropped, is jittered by two draws of its own. *)
Theorem jitter_decided_before_filter welllist prod inj include_unknown g r i j w' :
  In r (fst (prepare_well_data welllist prod inj include_unknown g)) ->
  Well_ID r = S i ->
  j <> i -> nth_error (wells welllist) j = Some w' ->
  same_coords (coords (source r)) (coords w') = true ->
  let k := mask_sum (dup_mask_of (wells welllist)) in
  exists a,
    a < k /\
    plot_lon r = (Well.Longitude_NAD_83 (source r) + jitter_draw (g a))%float /\
    plot_lat r =
      (Well.Latitude_NAD_83 (source r) + jitter_draw (g (k + a)%nat))%float.
Proof.
  intros Hr Hid Hne Hj Hsame k.
  apply prepare_row_position in Hr as (i' & Hid' & Hr).
  assert (i' = i) by lia. subst i'.
  apply prepared_all_row in Hr as (Hs & _ & _ & _ & Hx & Hy).
  assert (Hm : nth i (dup_mask_of (wells welllist)) false = true)
    by (apply (dup_mask_spec _ _ Hs); exists j, w'; auto).
  rewrite Hm in Hx, Hy.
  exists (mask_sum (firstn i (dup_mask_of (wells welllist)))).
  split; [now apply mask_sum_firstn_lt|]. split; assumption.
Qed.

(** X6: every one of the first [k] samples of the generator is used, [k]
    being the number of rows in duplicate groups: for each [a < k] some row
    of the table before the filter has draw [a] added to its longitude and
    draw [k + a] added to its latitude. *)
Theorem every_draw_is_used welllist prod inj g a :
  let k := mask_sum (dup_mask_of (wells welllist)) in
  a < k ->
  exists r,
    In r (fst (prepare_well_data welllist prod inj true g)) /\
    plot_lon r = (Well.Longitude_NAD_83 (source r) + jitter_draw (g a))%float /\
    plot_lat r =
      (Well.Latitude_NAD_83 (source r) + jitter_draw (g (k + a)%nat))%float.
Proof.
  intros k Ha.
  destruct (rank_reached (dup_mask_of (wells welllist)) Ha) as (i & Hi & Hm & Hr).
  rewrite dup_mask_length in Hi.
  destruct (nth_error (wells welllist) i) as [w|] eqn:Hw;
    [|apply nth_error_None in Hw; lia].
  destruct (prepared_all_nth_error welllist prod inj g _ Hw) as (r & Hnth & _).
  exists r. split; [exact (nth_error_In _ _ Hnth)|].
  apply prepared_all_row in Hnth as (_ & _ & _ & _ & Hx & Hy).
  rewrite Hm, Hr in Hx, Hy. split; assumption.
Qed.

(* ------------------------------------------------------------------ *)
(** ** The well map *)

(** X7: every row of a table made by [prepare_well_data] gets its marker
    colour from [color_map]: blue for "Production", red for "Injection",
    gray for "Unknown"; the library's own colours are never needed. *)
Theorem map_colours_cover_types welllist prod inj include_unknown g label_mode r :
  let fig :=
    plot_well_map (fst (prepare_well_data welllist prod inj include_unknown g))
      label_mode in
  In r (map_frame fig) ->
  (Well_Type r = "Production" /\ marker_color_of fig r = Some "blue") \/
  (Well_Type r = "Injection" /\ marker_color_of fig r = Some "red") \/
  (Well_Type r = "Unknown" /\ marker_color_of fig r = Some "gray").
Proof.
  intros fig Hr. unfold fig in *. simpl map_frame in Hr.
  apply prepare_row_position in Hr as (i & _ & Hr).
  apply prepared_all_row in Hr as (_ & Ht & _).
  unfold marker_color_of. simpl. rewrite Ht. unfold well_type_of.
  destruct (Py.contains _ _); [right; left; split; reflexivity|].
  destruct (Py.contains _ _); [left|right; right]; split; reflexivity.
Qed.

(* ------------------------------------------------------------------ *)
(** ** More on the chart builders *)

Lemma enumerate_nth_error A (l : list A) i a :
  nth_error l i = Some a -> nth_error (enumerate l) i = Some (i, a).
Proof.
  unfold enumerate.
  assert (H : forall n, nth_error l i = Some a ->
            nth_error (combine (seq n (List.length l)) l) i = Some (n + i, a)).
  { revert i; induction l as [|b l IH]; intros i n Hi.
    - destruct i; discriminate.
    - destruct i as [|i]; simpl in *.
      + injection Hi as ->. f_equal. f_equal. lia.
      + rewrite (IH i (S n) Hi). f_equal. f_equal. lia. }
  apply H.
Qed.

Lemma enumerate_In_value A (l : list A) i a :
  In (i, a) (enumerate l) -> In a l.
Proof. unfold enumerate. apply in_combine_r. Qed.

Lemma enumerate_length A (l : list A) :
  List.length (enumerate l) = List.length l.
Proof.
  unfold enumerate. rewrite length_combine, length_seq. apply Nat.min_id.
Qed.

Lemma flat_map_two_nth_error A B (f : A -> list B) (l : list A) i a :
  (forall a', List.length (f a') = 2) ->
  nth_error l i = Some a ->
  nth_error (flat_map f l) (2 * i) = nth_error (f a) 0 /\
  nth_error (flat_map f l) (2 * i + 1) = nth_error (f a) 1.
Proof.
  intros Hf. revert i; induction l as [|b l IH]; intros i H.
  - destruct i; discriminate.
  - simpl flat_map. specialize (Hf b) as Hb.
    destruct (f b) as [|b0 [|b1 [|? ?]]] eqn:E; try discriminate.
    destruct i as [|i]; simpl in H.
    + injection H as <-. rewrite E. split; reflexivity.
    + replace (2 * S i) with (S (S (2 * i))) by lia.
      replace (S (S (2 * i)) + 1) with (S (S (2 * i + 1))) by lia.
      simpl. now apply IH.
Qed.

Lemma flat_map_two_length A B (f : A -> list B) (l : list A) :
  (forall a', List.length (f a') = 2) ->
  List.length (flat_map f l) = 2 * List.length l.
Proof.
  intros Hf. induction l as [|b l IH]; simpl; [reflexivity|].
  rewrite length_app, Hf, IH. lia.
Qed.

Lemma prod_of_well_incl prod_df prod_wells well :
  In well prod_wells ->
  incl (prod_of_well prod_df well) (prod_of_wells prod_df prod_wells).
Proof.
  intros Hw r Hr. unfold prod_of_well, prod_of_wells in *.
  apply filter_In in Hr as (Hr & E). apply String.eqb_eq in E.
  apply filter_In. split; [assumption|]. apply contains_In. now rewrite E.
Qed.

Lemma inj_of_well_incl inj_df inj_wells well :
  In well inj_wells ->
  incl (inj_of_well inj_df well) (inj_of_wells inj_df inj_wells).
Proof.
  intros Hw r Hr. unfold inj_of_well, inj_of_wells in *.
  apply filter_In in Hr as (Hr & E). apply String.eqb_eq in E.
  apply filter_In. split; [assumption|]. apply contains_In. now rewrite E.
Qed.

Section MoreBuilders.

Variable datetime : Type.
Variable parse_datetime : string -> option datetime.

Lemma origin_water_inj_prod prod_df inj_df prod_wells inj_wells t :
  In t (data (plot_water_inj_prod parse_datetime prod_df inj_df prod_wells inj_wells)) ->
  from_selection parse_datetime [Prod.Water_M3] prod_df inj_df prod_wells inj_wells t.
Proof.
  unfold plot_water_inj_prod. simpl data. intros H.
  apply in_app_or in H as [H|H]; apply in_map_iff in H as (well & <- & Hw).
  - left. exists well, Prod.Water_M3. simpl. auto.
  - right. exists well. simpl. auto.
Qed.

Lemma origin_oil_inj_prod prod_df inj_df prod_wells inj_wells t :
  In t (data (plot_oil_inj_prod parse_datetime prod_df inj_df prod_wells inj_wells)) ->
  from_selection parse_datetime [Prod.Oil_M3] prod_df inj_df prod_wells inj_wells t.
Proof.
  unfold plot_oil_inj_prod. simpl data. intros H.
  apply in_app_or in H as [H|H];
    apply in_map_iff in H as ([i well] & <- & Hw);
    apply enumerate_In_value in Hw.
  - left. exists well, Prod.Oil_M3. simpl. auto.
  - right. exists well. simpl. auto.
Qed.

Lemma origin_gas_inj_prod prod_df inj_df prod_wells inj_wells t :
  In t (data (plot_gas_inj_prod parse_datetime prod_df inj_df prod_wells inj_wells)) ->
  from_selection parse_datetime [Prod.Gas_E3M3] prod_df inj_df prod_wells inj_wells t.
Proof.
  unfold plot_gas_inj_prod. simpl data. intros H.
  apply in_app_or in H as [H|H].
  - apply in_map_iff in H as ([i well] & <- & Hw).
    apply enumerate_In_value in Hw.
    left. exists well, Prod.Gas_E3M3. simpl. auto.
  - apply in_map_iff in H as (well & <- & Hw).
    right. exists well. simpl. auto.
Qed.

Lemma origin_oil_water_prod prod_df inj_df prod_wells t :
  In t (data (plot_oil_water_prod parse_datetime prod_df prod_wells)) ->
  from_selection parse_datetime [Prod.Oil_M3; Prod.Water_M3] prod_df inj_df
    prod_wells [] t.
Proof.
  unfold plot_oil_water_prod. simpl data. intros H.
  apply in_flat_map in H as (well & Hw & [<-|[<-|[]]]); left.
  - exists well, Prod.Oil_M3. simpl. auto.
  - exists well, Prod.Water_M3. simpl. auto.
Qed.

Lemma origin_gas_water_prod prod_df inj_df prod_wells t :
  In t (data (plot_gas_water_prod parse_datetime prod_df prod_wells)) ->
  from_selection parse_datetime [Prod.Gas_E3M3; Prod.Water_M3] prod_df inj_df
    prod_wells [] t.
Proof.
  unfold plot_gas_water_prod. simpl data. intros H.
  apply in_flat_map in H as ([i well] & Hw & [<-|[<-|[]]]);
    apply enumerate_In_value in Hw; left.
  - exists well, Prod.Gas_E3M3. simpl. auto.
  - exists well, Prod.Water_M3. simpl. auto.
Qed.

Lemma from_selection_lengths cols prod_df inj_df prod_wells inj_wells
    (t : trace datetime) :
  from_selection parse_datetime cols prod_df inj_df prod_wells inj_wells t ->
  List.length (x t) = List.length (y t).
Proof.
  intros [(well & col & _ & _ & -> & ->)|(well & _ & -> & ->)];
    unfold to_datetime; now rewrite !length_map.
Qed.

(** A value plotted by a trace is one of the values the scale is taken
    over. *)
Lemma from_selection_value cols prod_df inj_df prod_wells inj_wells
    (t : trace datetime) v :
  from_selection parse_datetime cols prod_df inj_df prod_wells inj_wells t ->
  In v (y t) ->
  (exists col, In col cols /\ In v (map col (prod_of_wells prod_df prod_wells))) \/
  In v (map Inj.Water_Inj_M3 (inj_of_wells inj_df inj_wells)).
Proof.
  intros [(well & col & Hw & Hc & Hy & _)|(well & Hw & Hy & _)] Hv;
    rewrite Hy in Hv; apply in_map_iff in Hv as (r & <- & Hr).
  - left. exists col. split; [assumption|].
    apply in_map. now apply (prod_of_well_incl prod_df prod_wells well Hw).
  - right. apply in_map. now apply (inj_of_well_incl inj_df inj_wells well Hw).
Qed.

(** X8: in the three charts of production against injection the
    production traces come first, in selection order: trace [i] plots the
    rows of the [i]-th selected production well.  The water bars have no
    colour of their own; the oil line is brown and the gas bar green exactly
    for the first selected well. *)
Theorem production_traces_by_position prod_df inj_df prod_wells inj_wells i well :
  nth_error prod_wells i = Some well ->
  (exists t,
     nth_error
       (data (plot_water_inj_prod parse_datetime prod_df inj_df prod_wells inj_wells))
       i = Some t /\
     kind t = Bar /\
     name t = ("Water Production from well " ++ well)%string /\
     y t = map Prod.Water_M3 (prod_of_well prod_df well) /\
     line_color t = None /\ marker_color t = None) /\
  (exists t,
     nth_error
       (data (plot_oil_inj_prod parse_datetime prod_df inj_df prod_wells inj_wells))
       i = Some t /\
     kind t = Scatter /\
     name t = ("Oil Production from well " ++ well)%string /\
     y t = map Prod.Oil_M3 (prod_of_well prod_df well) /\
     (line_color t = Some "brown" <-> i = 0) /\
     (i <> 0 -> line_color t = None)) /\
  (exists t,
     nth_error
       (data (plot_gas_inj_prod parse_datetime prod_df inj_df prod_wells inj_wells))
       i = Some t /\
     kind t = Bar /\
     name t = ("Gas Production from well " ++ well)%string /\
     y t = map Prod.Gas_E3M3 (prod_of_well prod_df well) /\
     (marker_color t = Some "green" <-> i = 0) /\
     (i <> 0 -> marker_color t = None)).
Proof.
  intros Hw.
  assert (Hlt : i < List.length prod_wells) by (apply nth_error_Some; congruence).
  pose proof (enumerate_nth_error prod_wells i Hw) as He.
  split; [|split]; eexists;
    (split;
     [ simpl data;
       rewrite nth_error_app1 by (rewrite length_map, ?enumerate_length; exact Hlt);
       rewrite nth_error_map, ?He, ?Hw; reflexivity
     | simpl; unfold color_if; destruct i; simpl;
       repeat split; intros; try reflexivity; try discriminate; try congruence ]).
Qed.

(** X9: the injection lines follow the production traces, in selection
    order: with [n] production wells selected, trace [n + j] plots the rows
    of the [j]-th selected injection well, and the figure has no other
    trace.  Only [plot_oil_inj_prod] colours an injection line: blue,
    exactly for the first selected injection well. *)
Theorem injection_traces_by_position prod_df inj_df prod_wells inj_wells j well :
  nth_error inj_wells j = Some well ->
  let n := List.length prod_wells in
  let water := plot_water_inj_prod parse_datetime prod_df inj_df prod_wells inj_wells in
  let oil := plot_oil_inj_prod parse_datetime prod_df inj_df prod_wells inj_wells in
  let gas := plot_gas_inj_prod parse_datetime prod_df inj_df prod_wells inj_wells in
  List.length (data water) = n + List.length inj_wells /\
  List.length (data oil) = n + List.length inj_wells /\
  List.length (data gas) = n + List.length inj_wells /\
  (exists t,
     nth_error (data water) (n + j) = Some t /\ kind t = Scatter /\
     name t = ("Water Injection into Well " ++ well)%string /\
     y t = map Inj.Water_Inj_M3 (inj_of_well inj_df well) /\
     line_color t = None) /\
  (exists t,
     nth_error (data oil) (n + j) = Some t /\ kind t = Scatter /\
     name t = ("Water Injection into Well " ++ well)%string /\
     y t = map Inj.Water_Inj_M3 (inj_of_well inj_df well) /\
     (line_color t = Some "blue" <-> j = 0) /\
     (j <> 0 -> line_color t = None)) /\
  (exists t,
     nth_error (data gas) (n + j) = Some t /\ kind t = Scatter /\
     name t = ("Water Injection into Well " ++ well)%string /\
     y t = map Inj.Water_Inj_M3 (inj_of_well inj_df well) /\
     line_color t = None).
Proof.
  intros Hw n water oil gas.
  pose proof (enumerate_nth_error inj_wells j Hw) as He.
  split; [|split; [|split]];
    [ unfold water | unfold oil | unfold gas | ];
    try (simpl data; now rewrite length_app, !length_map, ?enumerate_length).
  split; [|split]; eexists;
    (split;
     [ simpl data;
       rewrite nth_error_app2 by (rewrite length_map, ?enumerate_length; unfold n; lia);
       rewrite length_map, ?enumerate_length;
       replace (n + j - List.length prod_wells) with j by (unfold n; lia);
       rewrite nth_error_map, ?He, ?Hw; reflexivity
     | simpl; unfold color_if; destruct j; simpl;
       repeat split; intros; try reflexivity; try discriminate; try congruence ]).
Qed.

(** X10: [plot_gas_water_prod] adds, for each selected well in selection
    order, one gas line and then one water bar; the gas line of the first
    selected well is green however many wells are selected, and no other
    gas line is coloured. *)
Theorem gas_water_traces prod_df prod_wells i well :
  nth_error prod_wells i = Some well ->
  let fig := plot_gas_water_prod parse_datetime prod_df prod_wells in
  List.length (data fig) = 2 * List.length prod_wells /\
  exists gas bar,
    nth_error (data fig) (2 * i) = Some gas /\
    nth_error (data fig) (2 * i + 1) = Some bar /\
    kind gas = Scatter /\
    name gas = ("Gas Production " ++ well)%string /\
    y gas = map Prod.Gas_E3M3 (prod_of_well prod_df well) /\
    kind bar = Bar /\
    name bar = ("Water Production " ++ well)%string /\
    y bar = map Prod.Water_M3 (prod_of_well prod_df well) /\
    (line_color gas = Some "green" <-> i = 0) /\
    (i <> 0 -> line_color gas = None) /\
    line_color bar = None /\ marker_color bar = None.
Proof.
  intros Hw fig. unfold fig, plot_gas_water_prod. simpl data.
  pose proof (enumerate_nth_error prod_wells i Hw) as He.
  match goal with
  | |- context [flat_map ?f (enumerate prod_wells)] =>
      assert (Hf : forall p, List.length (f p) = 2) by (intros [? ?]; reflexivity);
      destruct (flat_map_two_nth_error f (enumerate prod_wells) i Hf He)
        as (H0 & H1);
      pose proof (flat_map_two_length f (enumerate prod_wells) Hf) as Hlen
  end.
  rewrite enumerate_length in Hlen. split; [exact Hlen|].
  eexists. eexists.
  split; [rewrite H0; reflexivity|]. split; [rewrite H1; reflexivity|].
  simpl. unfold color_if. destruct i; simpl;
    repeat split; intros; try reflexivity; try discriminate; try congruence.
Qed.

(** X11: in every trace of every chart the dates and the values are as
    many: the figure never pairs a value with no date. *)
Theorem trace_xy_same_length prod_df inj_df prod_wells inj_wells :
  (forall t,
     In t (data (plot_water_inj_prod parse_datetime prod_df inj_df prod_wells inj_wells)) ->
     List.length (x t) = List.length (y t)) /\
  (forall t,
     In t (data (plot_oil_inj_prod parse_datetime prod_df inj_df prod_wells inj_wells)) ->
     List.length (x t) = List.length (y t)) /\
  (forall t,
     In t (data (plot_gas_inj_prod parse_datetime prod_df inj_df prod_wells inj_wells)) ->
     List.length (x t) = List.length (y t)) /\
  (forall t,
     In t (data (plot_oil_water_prod parse_datetime prod_df prod_wells)) ->
     List.length (x t) = List.length (y t)) /\
  (forall t,
     In t (data (plot_gas_water_prod parse_datetime prod_df prod_wells)) ->
     List.length (x t) = List.length (y t)).
Proof.
  split; [|split; [|split; [|split]]]; intros t Ht.
  - exact (from_selection_lengths (origin_water_inj_prod _ _ _ _ _ Ht)).
  - exact (from_selection_lengths (origin_oil_inj_prod _ _ _ _ _ Ht)).
  - exact (from_selection_lengths (origin_gas_inj_prod _ _ _ _ _ Ht)).
  - exact (from_selection_lengths (origin_oil_water_prod _ inj_df _ _ Ht)).
  - exact (from_selection_lengths (origin_gas_water_prod _ inj_df _ _ Ht)).
Qed.

Lemma shared_max_bounds prod_col prod_df inj_df prod_wells inj_wells :
  let m := shared_max prod_col prod_df inj_df prod_wells inj_wells in
  PrimFloat.is_nan m = false /\
  (0 <=? m)%float = true /\
  (forall (t : trace datetime) v,
     from_selection parse_datetime [prod_col] prod_df inj_df prod_wells inj_wells t ->
     In v (y t) -> PrimFloat.is_nan v = false -> (v <=? m)%float = true).
Proof.
  intros m. unfold m. rewrite shared_max_chain.
  destruct (py_max_chain_spec
              (map prod_col (prod_of_wells prod_df prod_wells))
              (map Inj.Water_Inj_M3 (inj_of_wells inj_df inj_wells)))
    as (Hn & Hz & Hub & _).
  split; [exact Hn|]. split; [exact Hz|].
  intros t v Ht Hv Hnan. apply Hub; [|exact Hnan].
  apply in_app_iff.
  apply from_selection_value with (v := v) in Ht; [|exact Hv].
  destruct Ht as [(col & [<-|[]] & Hin)|Hin]; auto.
Qed.

(** X12: in the three charts of production against injection the upper end
    of the y-axes is never NaN and never below 0, whatever the tables hold,
    and no plotted value exceeds it: every value of every trace that is not
    NaN is at most the upper end. *)
Theorem points_within_scale prod_df inj_df prod_wells inj_wells :
  let water := plot_water_inj_prod parse_datetime prod_df inj_df prod_wells inj_wells in
  let oil := plot_oil_inj_prod parse_datetime prod_df inj_df prod_wells inj_wells in
  let gas := plot_gas_inj_prod parse_datetime prod_df inj_df prod_wells inj_wells in
  (exists m,
     both_axes_range water m /\ PrimFloat.is_nan m = false /\
     (0 <=? m)%float = true /\
     forall t v, In t (data water) -> In v (y t) ->
                 PrimFloat.is_nan v = false -> (v <=? m)%float = true) /\
  (exists m,
     both_axes_range oil m /\ PrimFloat.is_nan m = false /\
     (0 <=? m)%float = true /\
     forall t v, In t (data oil) -> In v (y t) ->
                 PrimFloat.is_nan v = false -> (v <=? m)%float = true) /\
  (exists m,
     both_axes_range gas m /\ PrimFloat.is_nan m = false /\
     (0 <=? m)%float = true /\
     forall t v, In t (data gas) -> In v (y t) ->
                 PrimFloat.is_nan v = false -> (v <=? m)%float = true).
Proof.
  intros water oil gas.
  split; [|split].
  - destruct (shared_max_bounds Prod.Water_M3 prod_df inj_df prod_wells inj_wells)
      as (Hn & Hz & Hub).
    eexists. split; [split; reflexivity|]. split; [exact Hn|].
    split; [exact Hz|]. intros t v Ht. apply Hub.
    now apply origin_water_inj_prod.
  - destruct (shared_max_bounds Prod.Oil_M3 prod_df inj_df prod_wells inj_wells)
      as (Hn & Hz & Hub).
    eexists. split; [split; reflexivity|]. split; [exact Hn|].
    split; [exact Hz|]. intros t v Ht. apply Hub.
    now apply origin_oil_inj_prod.
  - destruct (shared_max_bounds Prod.Gas_E3M3 prod_df inj_df prod_wells inj_wells)
      as (Hn & Hz & Hub).
    eexists. split; [split; reflexivity|]. split; [exact Hn|].
    split; [exact Hz|]. intros t v Ht. apply Hub.
    now apply origin_gas_inj_prod.
Qed.

Lemma series_max_all_nan col :
  (forall v, In v col -> PrimFloat.is_nan v = true) ->
  PrimFloat.is_nan (series_max col) = true.
Proof.
  intros Hall. destruct (PrimFloat.is_nan (series_max col)) eqn:E;
    [reflexivity|].
  destruct (series_max_spec col) as (_ & Hf).
  destruct (Hf E) as (Hin & _). rewrite (Hall _ Hin) in E. discriminate.
Qed.

Lemma py_max_nan_first a b : PrimFloat.is_nan a = true -> py_max a b = a.
Proof.
  intros Ha. unfold py_max. destruct (a <? b)%float eqn:E; [|reflexivity].
  apply float_ltb_leb, float_leb_not_nan in E as (E & _). congruence.
Qed.

(** X13: the two production-only charts take their scale as
    [max(first.max(), water.max())] with no 0 to start from: when wells are
    selected and none of their rows has a value in the chart's first column
    ("Oil M3", "Gas E3M3"), the upper end of both y-axes is NaN, whatever
    "Water M3" holds. *)
Theorem production_scale_nan prod_df prod_wells :
  prod_wells <> [] ->
  ((forall r, In r (prod_of_wells prod_df prod_wells) ->
              PrimFloat.is_nan (Prod.Oil_M3 r) = true) ->
   exists m,
     both_axes_range (plot_oil_water_prod parse_datetime prod_df prod_wells) m /\
     PrimFloat.is_nan m = true) /\
  ((forall r, In r (prod_of_wells prod_df prod_wells) ->
              PrimFloat.is_nan (Prod.Gas_E3M3 r) = true) ->
   exists m,
     both_axes_range (plot_gas_water_prod parse_datetime prod_df prod_wells) m /\
     PrimFloat.is_nan m = true).
Proof.
  intros Hsel.
  assert (Ht : truthy prod_wells = true)
    by (destruct prod_wells; [congruence|reflexivity]).
  split; intros Hall; eexists; (split; [split; reflexivity|]);
    unfold prod_max; rewrite Ht; rewrite py_max_nan_first;
    apply series_max_all_nan; intros v Hv;
    apply in_map_iff in Hv as (r & <- & Hr); auto.
Qed.

Lemma prod_max_bounds prod_col prod_df prod_wells r :
  In r (prod_of_wells prod_df prod_wells) ->
  PrimFloat.is_nan (prod_col r) = false ->
  let m := prod_max prod_col prod_df prod_wells in
  PrimFloat.is_nan m = false /\
  forall v,
    In v (map prod_col (prod_of_wells prod_df prod_wells)
          ++ map Prod.Water_M3 (prod_of_wells prod_df prod_wells)) ->
    PrimFloat.is_nan v = false -> (v <=? m)%float = true.
Proof.
  intros Hr Hnan m.
  assert (Hfirst : PrimFloat.is_nan
            (series_max (map prod_col (prod_of_wells prod_df prod_wells))) = false)
    by (apply (series_max_some_value _ (prod_col r));
        [now apply in_map|assumption]).
  destruct (prod_max_spec prod_col prod_df prod_wells Hfirst) as (Hin & Hub).
  split; [|exact Hub].
  pose proof (Hub (prod_col r)
                (in_or_app _ _ _ (or_introl (in_map prod_col _ _ Hr))) Hnan) as Hle.
  now apply float_leb_not_nan in Hle.
Qed.

(** X14: in the two production-only charts, when some selected row has a
    value in the chart's first column, the upper end of the y-axes is not
    NaN and no plotted value, of the line or of the water bars, exceeds
    it. *)
Theorem production_points_within_scale prod_df prod_wells :
  ((exists r, In r (prod_of_wells prod_df prod_wells) /\
              PrimFloat.is_nan (Prod.Oil_M3 r) = false) ->
   exists m,
     both_axes_range (plot_oil_water_prod parse_datetime prod_df prod_wells) m /\
     PrimFloat.is_nan m = false /\
     forall t v,
       In t (data (plot_oil_water_prod parse_datetime prod_df prod_wells)) ->
       In v (y t) -> PrimFloat.is_nan v = false -> (v <=? m)%float = true) /\
  ((exists r, In r (prod_of_wells prod_df prod_wells) /\
              PrimFloat.is_nan (Prod.Gas_E3M3 r) = false) ->
   exists m,
     both_axes_range (plot_gas_water_prod parse_datetime prod_df prod_wells) m /\
     PrimFloat.is_nan m = false /\
     forall t v,
       In t (data (plot_gas_water_prod parse_datetime prod_df prod_wells)) ->
       In v (y t) -> PrimFloat.is_nan v = false -> (v <=? m)%float = true).
Proof.
  split; intros (r & Hr & Hnan).
  - destruct (prod_max_bounds Prod.Oil_M3 prod_df prod_wells r Hr Hnan)
      as (Hm & Hub).
    eexists. split; [split; reflexivity|]. split; [exact Hm|].
    intros t v Ht Hv Hv'. apply Hub; [|exact Hv'].
    apply in_app_iff.
    pose proof (origin_oil_water_prod prod_df [] prod_wells t Ht) as Ho.
    apply from_selection_value with (v := v) in Ho; [|exact Hv].
    destruct Ho as [(col & [<-|[<-|[]]] & Hin')|Hin']; auto.
    simpl in Hin'. destruct Hin'.
  - destruct (prod_max_bounds Prod.Gas_E3M3 prod_df prod_wells r Hr Hnan)
      as (Hm & Hub).
    eexists. split; [split; reflexivity|]. split; [exact Hm|].
    intros t v Ht Hv Hv'. apply Hub; [|exact Hv'].
    apply in_app_iff.
    pose proof (origin_gas_water_prod prod_df [] prod_wells t Ht) as Ho.
    apply from_selection_value with (v := v) in Ho; [|exact Hv].
    destruct Ho as [(col & [<-|[<-|[]]] & Hin')|Hin']; auto.
    simpl in Hin'. destruct Hin'.
Qed.

Lemma prod_of_wells_members prod_df prod_wells prod_wells' :
  (forall well, In well (map Prod.UWI prod_df) ->
                (In well prod_wells <-> In well prod_wells')) ->
  prod_of_wells prod_df prod_wells = prod_of_wells prod_df prod_wells'.
Proof.
  intros H. unfold prod_of_wells. apply filter_ext_in. intros r Hr.
  specialize (H (Prod.UWI r) (in_map Prod.UWI _ _ Hr)).
  rewrite <- !contains_In in H.
  destruct (Py.contains prod_wells (Prod.UWI r)),
    (Py.contains prod_wells' (Prod.UWI r)); intuition congruence.
Qed.

Lemma inj_of_wells_members inj_df inj_wells inj_wells' :
  (forall well, In well (map Inj.UWI inj_df) ->
                (In well inj_wells <-> In well inj_wells')) ->
  inj_of_wells inj_df inj_wells = inj_of_wells inj_df inj_wells'.
Proof.
  intros H. unfold inj_of_wells. apply filter_ext_in. intros r Hr.
  specialize (H (Inj.UWI r) (in_map Inj.UWI _ _ Hr)).
  rewrite <- !contains_In in H.
  destruct (Py.contains inj_wells (Inj.UWI r)),
    (Py.contains inj_wells' (Inj.UWI r)); intuition congruence.
Qed.

(** X15: in the three charts of production against injection the scale
    depends on the selections only through the wells that have rows: two
    selections that agree on the wells of the production table and on the
    wells of the injection table give the same range, so neither the order
    of the selection nor a selected well without rows changes it. *)
Theorem scale_depends_on_selected_rows prod_df inj_df
    prod_wells inj_wells prod_wells' inj_wells' :
  (forall well, In well (map Prod.UWI prod_df) ->
                (In well prod_wells <-> In well prod_wells')) ->
  (forall well, In well (map Inj.UWI inj_df) ->
                (In well inj_wells <-> In well inj_wells')) ->
  (exists m,
     both_axes_range
       (plot_water_inj_prod parse_datetime prod_df inj_df prod_wells inj_wells) m /\
     both_axes_range
       (plot_water_inj_prod parse_datetime prod_df inj_df prod_wells' inj_wells') m) /\
  (exists m,
     both_axes_range
       (plot_oil_inj_prod parse_datetime prod_df inj_df prod_wells inj_wells) m /\
     both_axes_range
       (plot_oil_inj_prod parse_datetime prod_df inj_df prod_wells' inj_wells') m) /\
  (exists m,
     both_axes_range
       (plot_gas_inj_prod parse_datetime prod_df inj_df prod_wells inj_wells) m /\
     both_axes_range
       (plot_gas_inj_prod parse_datetime prod_df inj_df prod_wells' inj_wells') m).
Proof.
  intros Hp Hi.
  assert (E : forall prod_col,
             shared_max prod_col prod_df inj_df prod_wells' inj_wells'
             = shared_max prod_col prod_df inj_df prod_wells inj_wells).
  { intros prod_col. rewrite !shared_max_chain.
    now rewrite (prod_of_wells_members prod_df prod_wells prod_wells' Hp),
      (inj_of_wells_members inj_df inj_wells inj_wells' Hi). }
  split; [|split]; eexists;
    (split; [split; reflexivity|]);
    unfold both_axes_range; simpl; rewrite E; split; reflexivity.
Qed.

End MoreBuilders.

(* ------------------------------------------------------------------ *)
(** ** The options of the multi-selects *)

Lemma string_ltb_leb a b : String.ltb a b = true -> String.leb a b = true.
Proof. unfold String.ltb, String.leb. now destruct (String.compare a b). Qed.

Lemma string_nltb_leb a b : String.ltb a b = false -> String.leb b a = true.
Proof.
  unfold String.ltb, String.leb. rewrite (String.compare_antisym b a).
  now destruct (String.compare a b).
Qed.

Lemma insert_sorted_In a l x :
  In x (insert_sorted a l) <-> x = a \/ In x l.
Proof.
  induction l as [|b l IH]; simpl.
  - intuition.
  - destruct (String.ltb a b); simpl; [intuition|]. rewrite IH. intuition.
Qed.

Lemma insert_sorted_Sorted a l :
  Sorted (fun u v => String.leb u v = true) l ->
  Sorted (fun u v => String.leb u v = true) (insert_sorted a l).
Proof.
  induction l as [|b l IH]; simpl; intros H.
  - repeat constructor.
  - destruct (String.ltb a b) eqn:E.
    + constructor; [assumption|]. constructor. now apply string_ltb_leb.
    + inversion H as [|? ? Hs Hhd]; subst.
      constructor; [now apply IH|].
      destruct l as [|c l]; simpl.
      * constructor. now apply string_nltb_leb.
      * destruct (String.ltb a c); constructor;
          [now apply string_nltb_leb|now inversion Hhd].
Qed.

Lemma insert_sorted_NoDup a l :
  ~ In a l -> NoDup l -> NoDup (insert_sorted a l).
Proof.
  induction l as [|b l IH]; simpl; intros Ha Hl.
  - constructor; [intros []|constructor].
  - destruct (String.ltb a b).
    + constructor; assumption.
    + inversion Hl as [|? ? Hb Hl']; subst.
      constructor; [|apply IH; [tauto|assumption]].
      rewrite insert_sorted_In. intros [->|H]; tauto.
Qed.

Lemma sorted_spec l :
  NoDup l ->
  Sorted (fun u v => String.leb u v = true) (sorted l) /\
  NoDup (sorted l) /\
  forall x, In x (sorted l) <-> In x l.
Proof.
  unfold sorted.
  assert (H : forall acc,
             Sorted (fun u v => String.leb u v = true) acc -> NoDup acc ->
             NoDup l -> (forall x, In x l -> ~ In x acc) ->
             let r := fold_left (fun acc a => insert_sorted a acc) l acc in
             Sorted (fun u v => String.leb u v = true) r /\ NoDup r /\
             forall x, In x r <-> In x acc \/ In x l).
  { induction l as [|a l IH]; intros acc Hs Hn Hl Hd; simpl.
    - repeat split; try assumption; intuition.
    - inversion Hl as [|? ? Ha Hl']; subst.
      destruct (IH (insert_sorted a acc)) as (Hs' & Hn' & Hin').
      + now apply insert_sorted_Sorted.
      + apply insert_sorted_NoDup; [|assumption]. apply Hd. now left.
      + assumption.
      + intros x Hx. rewrite insert_sorted_In. intros [->|Hacc]; [tauto|].
        apply (Hd x); [now right|assumption].
      + repeat split; try assumption.
        * intros Hx. apply Hin' in Hx. rewrite insert_sorted_In in Hx.
          simpl. intuition (subst; auto).
        * intros Hx. apply Hin'. rewrite insert_sorted_In.
          simpl in Hx. intuition (subst; auto). }
  intros Hl. destruct (H [] (Sorted_nil _) (NoDup_nil _) Hl) as (Hs & Hn & Hin).
  - intros x _ [].
  - split; [assumption|]. split; [assumption|].
    intros x. rewrite Hin. simpl. tauto.
Qed.

Lemma unique_from_spec seen col :
  NoDup (unique_from seen col) /\
  forall x, In x (unique_from seen col) <-> In x col /\ ~ In x seen.
Proof.
  revert seen; induction col as [|a col IH]; intros seen; simpl.
  - split; [constructor|]. intuition.
  - destruct (Py.contains seen a) eqn:E.
    + apply contains_In in E. destruct (IH seen) as (Hn & Hin).
      split; [assumption|]. intros x. rewrite Hin.
      split; [tauto|]. intros ([->|Hx] & Hs); tauto.
    + assert (Ha : ~ In a seen)
        by (intros H; apply contains_In in H; congruence).
      destruct (IH (a :: seen)) as (Hn & Hin).
      split.
      * constructor; [|assumption]. rewrite Hin. simpl. tauto.
      * intros x. simpl. rewrite Hin. simpl. split.
        -- intros [<-|(Hx & Hs)]; tauto.
        -- intros ([<-|Hx] & Hs); [tauto|].
           destruct (string_dec a x) as [->|Hne]; tauto.
Qed.

(* ------------------------------------------------------------------ *)
(** ** The page *)

Section PageProofs.

Variable datetime : Type.
Variable parse_datetime : string -> option datetime.

Lemma charts_of_app (a b : list (element datetime)) :
  charts_of (a ++ b) = charts_of a ++ charts_of b.
Proof. unfold charts_of. apply flat_map_app. Qed.

Lemma charts_of_charts (figs : list (figure datetime)) :
  charts_of (map (@Chart datetime) figs) = figs.
Proof.
  unfold charts_of. induction figs as [|fig figs IH]; simpl; [|rewrite IH];
    reflexivity.
Qed.

(** The page when the three files are there and are read. *)
Lemma page_with_tables w g wf pf jf df_welllist df_prod df_inj :
  welllist_file w = Some wf -> prod_file w = Some pf -> inj_file w = Some jf ->
  read_csv wf = inl df_welllist -> read_csv pf = inl df_prod ->
  read_csv jf = inl df_inj ->
  charts_of (fst (page parse_datetime w g))
  = history_charts parse_datetime df_prod df_inj
      (prod_wells_select w) (inj_wells_select w) /\
  snd (page parse_datetime w g)
  = snd (prepare_well_data df_welllist df_prod df_inj
           (String.eqb (include_unknown_radio w) "Yes") g).
Proof.
  intros Hw Hp Hj Rw Rp Rj. unfold page, read_csv_file.
  rewrite Hw, Hp, Hj, Rw, Rp, Rj.
  destruct (prepare_well_data df_welllist df_prod df_inj
              (String.eqb (include_unknown_radio w) "Yes") g) as (df_wells & g').
  split; [|reflexivity].
  cbn [fst]. rewrite !charts_of_app, charts_of_charts. reflexivity.
Qed.

(** X17: while one of the three files is missing the page is the heading,
    the logo, the three uploaders and the prompt to upload; no file is
    read, so no error is shown even for a file that cannot be read, and
    [np.random] is not drawn from. *)
Theorem page_missing_file w g :
  welllist_file w = None \/ prod_file w = None \/ inj_file w = None ->
  page parse_datetime w g = (page_head datetime ++ [Info datetime upload_prompt], g).
Proof.
  intros H. unfold page.
  destruct (welllist_file w), (prod_file w), (inj_file w); try reflexivity.
  destruct H as [H|[H|H]]; discriminate H.
Qed.

(** X18: when the three files are uploaded and one of them cannot be read,
    the page is the heading, the logo, the uploaders and one error message
    for each file that could not be read, in the order well list,
    production, injection: no map, no table, no chart and no prompt to
    upload; [np.random] is not drawn from. *)
Theorem page_read_failure w g wf pf jf :
  welllist_file w = Some wf -> prod_file w = Some pf -> inj_file w = Some jf ->
  (exists e, read_csv wf = inr e) \/ (exists e, read_csv pf = inr e) \/
  (exists e, read_csv jf = inr e) ->
  page parse_datetime w g
  = (page_head datetime
     ++ map (@Error datetime) (read_error wf ++ read_error pf ++ read_error jf),
     g) /\
  read_error wf ++ read_error pf ++ read_error jf <> [].
Proof.
  intros Hw Hp Hj H. unfold page, read_csv_file, read_error.
  rewrite Hw, Hp, Hj.
  destruct (read_csv wf) as [tw|ew], (read_csv pf) as [tp|ep],
    (read_csv jf) as [tj|ej];
    try (split; [reflexivity|discriminate]).
  destruct H as [(e & H)|[(e & H)|(e & H)]]; discriminate H.
Qed.

(** X19: with the three tables read, the charts under the map are: the
    water, gas and oil charts against injection followed by the oil/water
    and gas/water charts when wells of both kinds are selected; the water
    chart alone, with no production well, when only injection wells are
    selected; the oil/water and gas/water charts when only production
    wells are selected; none when nothing is selected. *)
Theorem page_charts_dispatch w g wf pf jf df_welllist df_prod df_inj :
  welllist_file w = Some wf -> prod_file w = Some pf -> inj_file w = Some jf ->
  read_csv wf = inl df_welllist -> read_csv pf = inl df_prod ->
  read_csv jf = inl df_inj ->
  let charts := charts_of (fst (page parse_datetime w g)) in
  let prod_wells := prod_wells_select w in
  let inj_wells := inj_wells_select w in
  (prod_wells <> [] -> inj_wells <> [] ->
   charts =
     [ plot_water_inj_prod parse_datetime df_prod df_inj prod_wells inj_wells;
       plot_gas_inj_prod parse_datetime df_prod df_inj prod_wells inj_wells;
       plot_oil_inj_prod parse_datetime df_prod df_inj prod_wells inj_wells;
       plot_oil_water_prod parse_datetime df_prod prod_wells;
       plot_gas_water_prod parse_datetime df_prod prod_wells ]) /\
  (prod_wells = [] -> inj_wells <> [] ->
   charts = [ plot_water_inj_prod parse_datetime df_prod df_inj [] inj_wells ]) /\
  (prod_wells <> [] -> inj_wells = [] ->
   charts = [ plot_oil_water_prod parse_datetime df_prod prod_wells;
              plot_gas_water_prod parse_datetime df_prod prod_wells ]) /\
  (prod_wells = [] -> inj_wells = [] -> charts = []).
Proof.
  intros Hw Hp Hj Rw Rp Rj charts prod_wells inj_wells.
  destruct (page_with_tables w g Hw Hp Hj Rw Rp Rj) as (E & _).
  unfold charts. rewrite E. fold prod_wells inj_wells.
  unfold history_charts.
  destruct prod_wells as [|p pw], inj_wells as [|q iw]; simpl;
    repeat split; intros; try reflexivity; congruence.
Qed.

Lemma prod_of_well_present prod_df well :
  In well (map Prod.UWI prod_df) -> prod_of_well prod_df well <> [].
Proof.
  intros H. apply in_map_iff in H as (r & <- & Hr).
  assert (Hin : In r (prod_of_well prod_df (Prod.UWI r)))
    by (apply filter_In; split; [assumption|apply String.eqb_refl]).
  intros E. rewrite E in Hin. destruct Hin.
Qed.

Lemma inj_of_well_present inj_df well :
  In well (map Inj.UWI inj_df) -> inj_of_well inj_df well <> [].
Proof.
  intros H. apply in_map_iff in H as (r & <- & Hr).
  assert (Hin : In r (inj_of_well inj_df (Inj.UWI r)))
    by (apply filter_In; split; [assumption|apply String.eqb_refl]).
  intros E. rewrite E in Hin. destruct Hin.
Qed.

Lemma from_selection_points cols prod_df inj_df prod_wells inj_wells
    (t : trace datetime) :
  incl prod_wells (map Prod.UWI prod_df) ->
  incl inj_wells (map Inj.UWI inj_df) ->
  from_selection parse_datetime cols prod_df inj_df prod_wells inj_wells t ->
  y t <> [].
Proof.
  intros Hp Hi [(well & col & Hw & _ & -> & _)|(well & Hw & -> & _)].
  - pose proof (prod_of_well_present prod_df well (Hp _ Hw)) as Hne.
    destruct (prod_of_well prod_df well); [congruence|discriminate].
  - pose proof (inj_of_well_present inj_df well (Hi _ Hw)) as Hne.
    destruct (inj_of_well inj_df well); [congruence|discriminate].
Qed.

(** X20: a multi-select returns some of its options, and the options are
    the UWIs of the table; so on the page every trace of every chart has at
    least one point: a well without rows cannot be selected. *)
Theorem page_traces_have_points w g wf pf jf df_welllist df_prod df_inj fig t :
  welllist_file w = Some wf -> prod_file w = Some pf -> inj_file w = Some jf ->
  read_csv wf = inl df_welllist -> read_csv pf = inl df_prod ->
  read_csv jf = inl df_inj ->
  incl (prod_wells_select w) (prod_options df_prod) ->
  incl (inj_wells_select w) (inj_options df_inj) ->
  In fig (charts_of (fst (page parse_datetime w g))) ->
  In t (data fig) ->
  y t <> [] /\ List.length (x t) = List.length (y t).
Proof.
  intros Hw Hp Hj Rw Rp Rj Ip Ii Hfig Ht.
  destruct (page_with_tables w g Hw Hp Hj Rw Rp Rj) as (E & _).
  rewrite E in Hfig. clear E.
  assert (Ip' : incl (prod_wells_select w) (map Prod.UWI df_prod)).
  { intros well Hin. apply Ip in Hin. unfold prod_options, unique in Hin.
    destruct (unique_from_spec [] (map Prod.UWI df_prod)) as (Hn & Hu).
    destruct (sorted_spec Hn) as (_ & _ & Hs).
    apply Hs, Hu in Hin. tauto. }
  assert (Ii' : incl (inj_wells_select w) (map Inj.UWI df_inj)).
  { intros well Hin. apply Ii in Hin. unfold inj_options, unique in Hin.
    destruct (unique_from_spec [] (map Inj.UWI df_inj)) as (Hn & Hu).
    destruct (sorted_spec Hn) as (_ & _ & Hs).
    apply Hs, Hu in Hin. tauto. }
  assert (Hnil : incl (@nil string) (map Inj.UWI df_inj)) by (intros ? []).
  assert (Horigin : exists cols inj_wells,
            incl inj_wells (map Inj.UWI df_inj) /\
            from_selection parse_datetime cols df_prod df_inj
              (prod_wells_select w) inj_wells t).
  { unfold history_charts in Hfig.
    destruct (truthy (prod_wells_select w)), (truthy (inj_wells_select w));
      simpl in Hfig;
      repeat match goal with
             | H : _ \/ _ |- _ => destruct H as [H|H]
             | H : False |- _ => destruct H
             end; subst fig;
      first
        [ apply origin_water_inj_prod in Ht
        | apply origin_gas_inj_prod in Ht
        | apply origin_oil_inj_prod in Ht
        | apply (origin_oil_water_prod parse_datetime df_prod df_inj) in Ht
        | apply (origin_gas_water_prod parse_datetime df_prod df_inj) in Ht ];
      eauto. }
  destruct Horigin as (cols & inj_wells & Hincl & Ho).
  split.
  - exact (from_selection_points Ip' Hincl Ho).
  - exact (from_selection_lengths Ho).
Qed.

End PageProofs.

(* ------------------------------------------------------------------ *)
(** ** The further theorems on sample tables *)

Example sample_options :
  prod_options sample_prod = ["100/01-01"; "100/03-03"] /\
  inj_options sample_inj = ["100/01-01"; "100/09-09"] /\
  sorted (unique ["b"; "a"; "b"; "C"; "a"]) = ["C"; "a"; "b"].
Proof. repeat split; reflexivity. Qed.

Example sample_page_charts :
  List.length (charts_of (fst (page sample_parse sample_widgets sample_rng))) = 5 /\
  errors_of (fst (page sample_parse broken_widgets sample_rng))
  = ["Error reading file prod.csv: No columns to parse from file"].
Proof. split; reflexivity. Qed.

Lemma well_type_cases_sample :
  (Well_Type sample_third = "Injection" <->
     In (Well.UWI (source sample_third)) (map Inj.UWI sample_inj)) /\
  (Well_Type sample_third = "Production" <->
     In (Well.UWI (source sample_third)) (map Prod.UWI sample_prod) /\
     ~ In (Well.UWI (source sample_third)) (map Inj.UWI sample_inj)) /\
  (Well_Type sample_third = "Unknown" <->
     ~ In (Well.UWI (source sample_third)) (map Prod.UWI sample_prod) /\
     ~ In (Well.UWI (source sample_third)) (map Inj.UWI sample_inj)) /\
  (false = false -> Well_Type sample_third <> "Unknown").
Proof.
  apply (well_type_cases sample_wells sample_prod sample_inj false sample_rng
           sample_third).
  right. left. reflexivity.
Defined.

Lemma distinct_coordinates_sample :
  fst (prepare_well_data spread_wells sample_prod sample_inj true sample_rng)
  = fst (prepare_well_data spread_wells sample_prod sample_inj true half_samples) /\
  (forall n,
     snd (prepare_well_data spread_wells sample_prod sample_inj true sample_rng) n
     = sample_rng n) /\
  (forall r,
     In r (fst (prepare_well_data spread_wells sample_prod sample_inj true sample_rng)) ->
     plot_lon r = Well.Longitude_NAD_83 (source r) /\
     plot_lat r = Well.Latitude_NAD_83 (source r)).
Proof.
  apply distinct_coordinates_no_draws.
  intros [|[|i]] [|[|j]] w w' Hne Hw Hw'; simpl in Hw, Hw';
    try congruence;
    try (destruct i; discriminate Hw);
    try (destruct j; discriminate Hw');
    injection Hw as <-; injection Hw' as <-; reflexivity.
Defined.

Lemma jitter_before_filter_sample :
  exists a,
    a < 2 /\
    plot_lon sample_first = (-80 + jitter_draw (sample_rng a))%float /\
    plot_lat sample_first = (53 + jitter_draw (sample_rng (2 + a)%nat))%float.
Proof.
  apply (jitter_decided_before_filter sample_wells sample_prod sample_inj false
           sample_rng sample_first (i := 0) (j := 1) (w' := well_b)).
  - left. reflexivity.
  - reflexivity.
  - discriminate.
  - reflexivity.
  - reflexivity.
Defined.

Lemma every_draw_is_used_sample :
  exists r,
    In r sample_all /\
    plot_lon r = (Well.Longitude_NAD_83 (source r) + jitter_draw (sample_rng 1%nat))%float /\
    plot_lat r = (Well.Latitude_NAD_83 (source r) + jitter_draw (sample_rng 3%nat))%float.
Proof.
  apply (every_draw_is_used sample_wells sample_prod sample_inj sample_rng (a := 1)).
  simpl. lia.
Defined.

Lemma map_colours_sample :
  (Well_Type sample_second = "Production" /\
   marker_color_of (plot_well_map sample_all "Hover tooltips") sample_second
   = Some "blue") \/
  (Well_Type sample_second = "Injection" /\
   marker_color_of (plot_well_map sample_all "Hover tooltips") sample_second
   = Some "red") \/
  (Well_Type sample_second = "Unknown" /\
   marker_color_of (plot_well_map sample_all "Hover tooltips") sample_second
   = Some "gray").
Proof.
  apply (map_colours_cover_types sample_wells sample_prod sample_inj true
           sample_rng "Hover tooltips" sample_second).
  right. left. reflexivity.
Defined.

Lemma production_traces_sample :
  exists t,
    nth_error
      (data (plot_oil_inj_prod sample_parse sample_prod sample_inj
               ["100/03-03"; "100/01-01"] ["100/01-01"]))
      1 = Some t /\
    kind t = Scatter /\
    name t = "Oil Production from well 100/01-01" /\
    y t = [10%float; 20%float] /\
    (line_color t = Some "brown" <-> 1 = 0) /\
    (1 <> 0 -> line_color t = None).
Proof.
  exact (proj1 (proj2
    (production_traces_by_position sample_parse sample_prod sample_inj
       ["100/03-03"; "100/01-01"] ["100/01-01"] 1 eq_refl))).
Defined.

Lemma injection_traces_sample :
  exists t,
    nth_error
      (data (plot_oil_inj_prod sample_parse sample_prod sample_inj
               ["100/03-03"; "100/01-01"] ["100/09-09"; "100/01-01"]))
      3 = Some t /\
    kind t = Scatter /\
    name t = "Water Injection into Well 100/01-01" /\
    y t = [30%float] /\
    (line_color t = Some "blue" <-> 1 = 0) /\
    (1 <> 0 -> line_color t = None).
Proof.
  exact (proj1 (proj2 (proj2 (proj2 (proj2
    (injection_traces_by_position sample_parse sample_prod sample_inj
       ["100/03-03"; "100/01-01"] ["100/09-09"; "100/01-01"] 1 eq_refl)))))).
Defined.

Lemma gas_water_traces_sample :
  List.length
    (data (plot_gas_water_prod sample_parse sample_prod
             ["100/03-03"; "100/01-01"])) = 4 /\
  exists gas bar,
    nth_error
      (data (plot_gas_water_prod sample_parse sample_prod
               ["100/03-03"; "100/01-01"])) 0 = Some gas /\
    nth_error
      (data (plot_gas_water_prod sample_parse sample_prod
               ["100/03-03"; "100/01-01"])) 1 = Some bar /\
    kind gas = Scatter /\
    name gas = "Gas Production 100/03-03" /\
    y gas = [3%float] /\
    kind bar = Bar /\
    name bar = "Water Production 100/03-03" /\
    y bar = [nan] /\
    (line_color gas = Some "green" <-> 0 = 0) /\
    (0 <> 0 -> line_color gas = None) /\
    line_color bar = None /\ marker_color bar = None.
Proof.
  exact (gas_water_traces sample_parse sample_prod ["100/03-03"; "100/01-01"]
           0 eq_refl).
Defined.

Lemma production_scale_nan_sample :
  exists m,
    both_axes_range
      (plot_oil_water_prod sample_parse water_only_prod ["100/07-07"]) m /\
    PrimFloat.is_nan m = true.
Proof.
  refine (proj1 (production_scale_nan sample_parse water_only_prod
                   (prod_wells := ["100/07-07"]) _) _).
  - discriminate.
  - intros r [<-|[<-|[]]]; reflexivity.
Defined.

Lemma production_points_sample :
  exists m,
    both_axes_range
      (plot_oil_water_prod sample_parse sample_prod ["100/01-01"; "100/03-03"]) m /\
    PrimFloat.is_nan m = false /\
    forall t v,
      In t (data (plot_oil_water_prod sample_parse sample_prod
                    ["100/01-01"; "100/03-03"])) ->
      In v (y t) -> PrimFloat.is_nan v = false -> (v <=? m)%float = true.
Proof.
  refine (proj1 (production_points_within_scale sample_parse sample_prod
                   ["100/01-01"; "100/03-03"]) _).
  eexists. split; [left; reflexivity|reflexivity].
Defined.

Lemma scale_selection_sample :
  exists m,
    both_axes_range
      (plot_water_inj_prod sample_parse sample_prod sample_inj
         ["100/01-01"; "100/03-03"] ["100/01-01"]) m /\
    both_axes_range
      (plot_water_inj_prod sample_parse sample_prod sample_inj
         ["100/03-03"; "100/05-05"; "100/01-01"] ["100/07-07"; "100/01-01"]) m.
Proof.
  refine (proj1 (scale_depends_on_selected_rows sample_parse sample_prod sample_inj
                   ["100/01-01"; "100/03-03"] ["100/01-01"]
                   ["100/03-03"; "100/05-05"; "100/01-01"]
                   ["100/07-07"; "100/01-01"] _ _)).
  - intros well [<-|[<-|[<-|[]]]]; simpl; intuition.
  - intros well [<-|[<-|[]]]; simpl; intuition discriminate.
Defined.

Lemma page_missing_file_sample :
  page sample_parse empty_widgets sample_rng
  = (page_head string ++ [Info string upload_prompt], sample_rng).
Proof.
  apply page_missing_file. left. reflexivity.
Defined.

Lemma page_read_failure_sample :
  page sample_parse broken_widgets sample_rng
  = (page_head string
     ++ [Error string "Error reading file prod.csv: No columns to parse from file"],
     sample_rng) /\
  ["Error reading file prod.csv: No columns to parse from file"] <> [].
Proof.
  refine (page_read_failure sample_parse broken_widgets sample_rng
            eq_refl eq_refl eq_refl _).
  right. left. eexists. reflexivity.
Defined.

Lemma page_charts_sample :
  charts_of (fst (page sample_parse sample_widgets sample_rng))
  = [ plot_water_inj_prod sample_parse sample_prod sample_inj
        ["100/03-03"; "100/01-01"] ["100/01-01"];
      plot_gas_inj_prod sample_parse sample_prod sample_inj
        ["100/03-03"; "100/01-01"] ["100/01-01"];
      plot_oil_inj_prod sample_parse sample_prod sample_inj
        ["100/03-03"; "100/01-01"] ["100/01-01"];
      plot_oil_water_prod sample_parse sample_prod ["100/03-03"; "100/01-01"];
      plot_gas_water_prod sample_parse sample_prod ["100/03-03"; "100/01-01"] ].
Proof.
  refine (proj1 (page_charts_dispatch sample_parse sample_widgets sample_rng
                   eq_refl eq_refl eq_refl eq_refl eq_refl eq_refl) _ _);
    discriminate.
Defined.

Lemma page_traces_sample :
  Forall (fun t => y t <> [] /\ List.length (x t) = List.length (y t))
    (data (plot_gas_inj_prod sample_parse sample_prod sample_inj
             ["100/03-03"; "100/01-01"] ["100/01-01"])).
Proof.
  apply Forall_forall. intros t Ht.
  refine (page_traces_have_points sample_parse sample_widgets sample_rng
            (plot_gas_inj_prod sample_parse sample_prod sample_inj
               ["100/03-03"; "100/01-01"] ["100/01-01"]) t
            eq_refl eq_refl eq_refl eq_refl eq_refl eq_refl _ _ _ Ht).
  - intros well [<-|[<-|[]]]; simpl; auto.
  - intros well [<-|[]]; simpl; auto.
  - right. left. reflexivity.
Defined.
